(** * DMARC analytics dashboard: access guards, session lifecycle and report handlers

    A shallow embedding of the Hono workers of the repository
    ([src/index.js], three revisions, and the [/dashboard] revision that
    adds the geolocation lookup).  JavaScript values keep their dynamic
    typing, handlers run in a state-and-exception monad over the mutable
    bindings of the worker, and the pages produced by the [html] template
    helper are kept as trees whose leaves are the interpolated values. *)

From Stdlib Require Import String Ascii ZArith List QArith Qround Bool Lia.
From stdpp Require Import gmap strings.
Import ListNotations.

Local Open Scope string_scope.
Local Open Scope Z_scope.

(** ** JavaScript values *)

Module Js.

(** A JavaScript number.  Finite doubles are abstracted by the rational
    they denote (rounding and the sign of zero are not modelled); the three
    non-finite values are kept apart because division produces them. *)
Inductive num :=
| NaN
| Infinity (negative : bool)
| Fin (q : Q).

(** The values a request, a D1 row or a JWT payload can hold. *)
Inductive value :=
| VUndefined
| VNull
| VNum (n : num)
| VStr (s : string).

Definition of_Z (z : Z) : value := VNum (Fin (inject_Z z)).

Definition is_zero (q : Q) : bool := Qeq_bool q 0.
Definition is_neg (q : Q) : bool := negb (Qle_bool 0 q).

(** [!!v] *)
Definition truthy (v : value) : bool :=
  match v with
  | VUndefined | VNull => false
  | VNum NaN => false
  | VNum (Infinity _) => true
  | VNum (Fin q) => negb (is_zero q)
  | VStr s => negb (s =? "")%string
  end.

(** A string that may be [undefined] (query parameter, cookie, form field)
    or [null] (KV lookup). *)
Definition of_option (o : option string) : value :=
  match o with Some s => VStr s | None => VUndefined end.

Definition truthy_str (o : option string) : bool := truthy (of_option o).

(** [a || b] on strings-or-undefined *)
Definition or_else (o : option string) (d : string) : string :=
  match o with
  | Some s => if (s =? "")%string then d else s
  | None => d
  end.

Section Numbers.
(** [StringToNumber] of the language, left to the runtime. *)
Variable str_num : string -> num.

Definition to_number (v : value) : num :=
  match v with
  | VUndefined => NaN
  | VNull => Fin 0
  | VNum n => n
  | VStr s => str_num s
  end.

(** [a / b]: never raises; a zero divisor gives [NaN] or an infinity. *)
Definition div (a b : num) : num :=
  match a, b with
  | NaN, _ | _, NaN => NaN
  | Infinity _, Infinity _ => NaN
  | Infinity s, Fin q => Infinity (xorb s (is_neg q))
  | Fin _, Infinity _ => Fin 0
  | Fin p, Fin q =>
      if is_zero q then
        if is_zero p then NaN else Infinity (is_neg p)
      else Fin (Qred (p / q))
  end.

(** [Math.floor(a)] *)
Definition floor (a : num) : num :=
  match a with
  | Fin q => Fin (inject_Z (Qfloor q))
  | _ => a
  end.

(** [a * b] *)
Definition mul (a b : num) : num :=
  match a, b with
  | NaN, _ | _, NaN => NaN
  | Infinity s, Infinity t => Infinity (xorb s t)
  | Infinity s, Fin q | Fin q, Infinity s =>
      if is_zero q then NaN else Infinity (xorb s (is_neg q))
  | Fin p, Fin q => Fin (Qred (p * q))
  end.
End Numbers.

(** Property access on an object literal or a row: a missing key reads as
    [undefined]. *)
Definition object := list (string * value).

Fixpoint prop (o : object) (k : string) : value :=
  match o with
  | [] => VUndefined
  | (k', v) :: o' => if (k' =? k)%string then v else prop o' k
  end.

End Js.

Import Js.

(** ** Exceptions and the handler monad *)

Inductive exn :=
| TypeError (msg : string)
| Error (msg : string).

Inductive outcome (A : Type) :=
| Ret (a : A)
| Throw (e : exn).
Arguments Ret {A} a.
Arguments Throw {A} e.

(** ** The D1 binding *)

Record D1PreparedStatement := {
  stmt_sql : string;
  stmt_params : list value
}.

Definition row := object.

(** The object resolved by [stmt.all()]; [results] may be missing. *)
Record D1Result := { results : option (list row) }.

(** [env.DB]: the database is outside the worker, so each call is an
    oracle that answers or raises. *)
Record D1Database := {
  d1_prepare : string -> outcome D1PreparedStatement;
  d1_bind : D1PreparedStatement -> list value -> outcome D1PreparedStatement;
  d1_all : D1PreparedStatement -> outcome D1Result
}.

(** What a request can change: the credential store and the statements it
    has run against the database (newest first). *)
Record world := World {
  accounts : gmap string string;
  executed : list D1PreparedStatement
}.

Definition M (A : Type) : Type := world -> outcome A * world.

Definition ret {A} (a : A) : M A := fun w => (Ret a, w).

Definition throw {A} (e : exn) : M A := fun w => (Throw e, w).

Definition bind {A B} (m : M A) (k : A -> M B) : M B :=
  fun w =>
    match m w with
    | (Ret a, w') => k a w'
    | (Throw e, w') => (Throw e, w')
    end.

Definition lift {A} (o : outcome A) : M A := fun w => (o, w).

(** [try { body } catch (error) { handler }] *)
Definition try_catch {A} (body : M A) (handler : exn -> M A) : M A :=
  fun w =>
    match body w with
    | (Ret a, w') => (Ret a, w')
    | (Throw e, w') => handler e w'
    end.

Notation "x <- m ;; k" := (bind m (fun x => k))
  (at level 100, m at next level, right associativity).

(** [await stmt.all()], recorded in the world. *)
Definition run_all (db : D1Database) (stmt : D1PreparedStatement) : M D1Result :=
  fun w => (d1_all db stmt,
            {| accounts := accounts w; executed := stmt :: executed w |}).

(** ** Bindings of the worker *)

Record Env := {
  DB : D1Database;
  DMARC_DOMAINS : gmap string string;
  JWT_SECRET_KEY : string
}.

(** [fetchData(env, query, params)]; [params] is [None] when the argument is
    not an array. *)
Definition fetchData (env : Env) (query : string) (params : option (list value))
  : M (list row) :=
  try_catch
    (stmt <- lift (d1_prepare (DB env) query) ;;
     stmt <- match params with
             | Some ps => lift (d1_bind (DB env) stmt ps)
             | None => ret stmt
             end ;;
     result <- run_all (DB env) stmt ;;
     ret (match results result with Some rs => rs | None => [] end))
    (fun error => ret []).

(** What the database answers to the three calls of that [try] block. *)
Definition d1_exec (db : D1Database) (query : string) (params : option (list value))
  : outcome D1Result :=
  match d1_prepare db query with
  | Throw e => Throw e
  | Ret stmt =>
      match match params with
            | Some ps => d1_bind db stmt ps
            | None => Ret stmt
            end with
      | Throw e => Throw e
      | Ret stmt' => d1_all db stmt'
      end
  end.

(** ** Requests, responses and pages *)

Record Request := {
  req_method : string;
  req_path : string;
  query_params : list (string * string);   (* in the order of the URL *)
  cookie_header : list (string * string);
  form : list (string * string)            (* the object resolved by [parseBody()] *)
}.

Fixpoint assoc (l : list (string * string)) (k : string) : option string :=
  match l with
  | [] => None
  | (k', v) :: l' => if (k' =? k)%string then Some v else assoc l' k
  end.

(** An interpolated expression of a template, kept unformatted: locale and
    number formatting belong to the runtime. *)
Inductive piece :=
| Lit (s : string)
| Interp (v : value)                      (* [${v}] *)
| LocaleString (n : num)                  (* [n.toLocaleString()] *)
| ToFixed (digits : nat) (n : num)        (* [n.toFixed(digits)] *)
| LocaleDate (v : value).                 (* [new Date(v).toLocaleDateString()] *)

Definition cell := list piece.

Record FilterForm := {
  hidden_customer : value;
  start_value : string;
  end_value : string;
  domain_value : string
}.

Inductive content :=
| Stats (heading : cell) (cards : list (string * cell))
| Table (heading : string) (filter : option FilterForm)
        (head : list string) (rows : list (list cell))
| Config (customer : value).

Inductive page :=
| Layout (customer : option value) (c : content)   (* [layout(customerId, content)] / [layout(content)] *)
| ErrorPage                                         (* the page of [app.onError] *)
| LoginForm
| RegisterForm
| Landing.

Inductive Body :=
| Text (s : string)
| Html (p : page)
| NoBody.

Record CookieOptions := {
  httpOnly : bool;
  maxAge : option Z;
  expires : option Z;
  secure : bool;
  sameSite : option string;
  path : option string
}.

Record Cookie := {
  cookie_name : string;
  cookie_value : string;
  cookie_options : CookieOptions
}.

Record Response := {
  status : Z;
  body : Body;
  location : option string;
  set_cookie : list Cookie
}.

(** Hono's context [c]. *)
Record Context := {
  req : Request;
  env : Env;
  vars : gmap string value;        (* [c.set] / [c.get] *)
  pending_cookies : list Cookie    (* headers written by [setCookie] *)
}.

Definition new_context (e : Env) (r : Request) : Context :=
  {| req := r; env := e; vars := ∅; pending_cookies := [] |}.

Definition c_query (c : Context) (k : string) : option string :=
  assoc (query_params (req c)) k.

Definition getCookie (c : Context) (k : string) : option string :=
  assoc (cookie_header (req c)) k.

Definition c_set (c : Context) (k : string) (v : value) : Context :=
  {| req := req c; env := env c; vars := <[k := v]> (vars c);
     pending_cookies := pending_cookies c |}.

Definition c_get (c : Context) (k : string) : value :=
  match vars c !! k with Some v => v | None => VUndefined end.

Definition setCookie (c : Context) (name val : string) (o : CookieOptions) : Context :=
  {| req := req c; env := env c; vars := vars c;
     pending_cookies :=
       (pending_cookies c ++
        [{| cookie_name := name; cookie_value := val; cookie_options := o |}])%list |}.

Definition c_text (c : Context) (s : string) (st : Z) : Response :=
  {| status := st; body := Text s; location := None;
     set_cookie := pending_cookies c |}.

Definition c_html (c : Context) (p : page) (st : Z) : Response :=
  {| status := st; body := Html p; location := None;
     set_cookie := pending_cookies c |}.

Definition c_redirect (c : Context) (loc : string) : Response :=
  {| status := 302; body := NoBody; location := Some loc;
     set_cookie := pending_cookies c |}.

Definition Handler := Context -> M Response.
Definition Middleware := Context -> Handler -> M Response.

(** [app.onError]: an [Error] raised by a middleware or a handler becomes the
    500 page. *)
Definition onError (c : Context) (m : M Response) : M Response :=
  try_catch m (fun err => ret (c_html c ErrorPage 500)).

(** Hono composes the matched middleware and the route handler; each of the
    two runs under [onError], so [next()] itself does not raise. *)
Definition dispatch (mw : Middleware) (h : Handler) (c : Context) : M Response :=
  onError c (mw c (fun c' => onError c' (h c'))).

(** A KV binding takes its key as a string: a missing field is looked up
    under its string conversion. *)
Definition key_of (o : option string) : string :=
  match o with Some s => s | None => "undefined" end.

(** The keys a KV binding refuses: the empty key, [.], [..] and a key of more
    than 512 bytes. *)
Definition refused_key (k : string) : bool :=
  (k =? "")%string || (k =? ".")%string || (k =? "..")%string
  || (512 <? String.length k)%nat.

(** [env.KV.get(key)]: raises on a key the binding refuses; [None] is the
    [null] of a key that holds nothing. *)
Definition kv_get (kv : gmap string string) (key : option string)
  : outcome (option string) :=
  if refused_key (key_of key) then Throw (Error "KV GET failed")
  else Ret (kv !! key_of key).

(** Method calls on a value read from a row. *)
Definition toLocaleString (v : value) : outcome piece :=
  match v with
  | VNum n => Ret (LocaleString n)
  | VStr s => Ret (Interp (VStr s))
  | VUndefined => Throw (TypeError "Cannot read properties of undefined")
  | VNull => Throw (TypeError "Cannot read properties of null")
  end.

Definition toFixed (v : value) (digits : nat) : outcome piece :=
  match v with
  | VNum n => Ret (ToFixed digits n)
  | VStr s => Throw (TypeError "toFixed is not a function")
  | VUndefined => Throw (TypeError "Cannot read properties of undefined")
  | VNull => Throw (TypeError "Cannot read properties of null")
  end.

(** [data.map(row => html`...`)] where a cell may raise. *)
Fixpoint map_rows {A B} (f : A -> outcome B) (l : list A) : outcome (list B) :=
  match l with
  | [] => Ret []
  | x :: l' =>
      match f x with
      | Throw e => Throw e
      | Ret y =>
          match map_rows f l' with
          | Throw e => Throw e
          | Ret ys => Ret (y :: ys)
          end
      end
  end.

(** ** What the worker takes from its runtime and its libraries *)

(** The response of [fetch]; [json] raises when the body does not parse to an
    object. *)
Record FetchResponse := {
  ok : bool;
  http_status : Z;
  json : outcome object
}.

Record Runtime := {
  str_num : string -> num;                   (* [StringToNumber] *)
  date_parse : string -> num;                (* [new Date(s).getTime()] *)
  date_now : Z;                              (* [Date.now()], milliseconds *)
  fetch : value -> outcome FetchResponse     (* [fetch] of the ip-api URL built
                                                from the given address; raises on
                                                a network error or a timeout *)
}.

(** ** Statements of the report routes (white space normalised) *)

Definition sql_overview : string :=
  "SELECT COUNT(*) as total_reports, COUNT(DISTINCT source_ip) as unique_ips, COUNT(DISTINCT header_from) as unique_domains, SUM(CASE WHEN dkim_result = 1 AND spf_result = 1 THEN 1 ELSE 0 END) * 100.0 / COUNT(*) as success_rate FROM dmarc_reports WHERE customer_id = ?1".

Definition sql_overview_coalesce : string :=
  "SELECT COUNT(*) as total_reports, COUNT(DISTINCT source_ip) as unique_ips, COUNT(DISTINCT header_from) as unique_domains, COALESCE(SUM(CASE WHEN dkim_result = 1 AND spf_result = 1 THEN 1 ELSE 0 END) * 100.0 / NULLIF(COUNT(*), 0), 0) as success_rate FROM dmarc_reports WHERE customer_id = ?1".

Definition sql_geo : string :=
  "SELECT source_ip, COUNT(*) as total FROM dmarc_reports WHERE customer_id = ?1 GROUP BY source_ip".

Definition sql_domain_summary : string :=
  "SELECT ds.domain, ds.report_count, ds.first_seen, ds.last_seen, COUNT(DISTINCT dr.source_ip) as unique_ips, SUM(CASE WHEN dr.dkim_result = 1 AND dr.spf_result = 1 THEN 1 ELSE 0 END) as passed, COUNT(*) as total FROM domain_stats ds LEFT JOIN dmarc_reports dr ON ds.domain = dr.header_from WHERE ds.customer_id = ?1 GROUP BY ds.domain ORDER BY ds.report_count DESC".

(** The first two revisions of [src/index.js] serve the routes at the root
    and select no [date_range_end]; the later ones serve them under
    [/dashboard]. *)
Inductive revision := AtRoot | UnderDashboard.

Definition sql_detailed (rev : revision) : string :=
  match rev with
  | AtRoot =>
      "SELECT date_range_begin, header_from, source_ip, dkim_result, spf_result, disposition, policy_override_type, error FROM dmarc_reports WHERE customer_id = ?1"
  | UnderDashboard =>
      "SELECT date_range_begin, date_range_end, header_from, source_ip, dkim_result, spf_result, disposition, policy_override_type, error FROM dmarc_reports WHERE customer_id = ?1"
  end.

Definition sql_end_filter (rev : revision) : string :=
  match rev with
  | AtRoot => " AND date_range_begin <= ?3"
  | UnderDashboard => " AND date_range_end <= ?3"
  end.

Definition sql_auth_rates (rev : revision) : string :=
  match rev with
  | AtRoot =>
      "SELECT date_range_begin, COUNT(*) as total, SUM(CASE WHEN dkim_result = 1 AND spf_result = 1 THEN 1 ELSE 0 END) as success, SUM(CASE WHEN dkim_result = 0 OR spf_result = 0 THEN 1 ELSE 0 END) as failure FROM dmarc_reports WHERE customer_id = ?1 GROUP BY date_range_begin ORDER BY date_range_begin LIMIT 30"
  | UnderDashboard =>
      "SELECT date_range_begin, date_range_end, COUNT(*) as total, SUM(CASE WHEN dkim_result = 1 AND spf_result = 1 THEN 1 ELSE 0 END) as success, SUM(CASE WHEN dkim_result = 0 OR spf_result = 0 THEN 1 ELSE 0 END) as failure FROM dmarc_reports WHERE customer_id = ?1 GROUP BY date_range_begin, date_range_end ORDER BY date_range_begin LIMIT 30"
  end.

Definition sql_top_senders : string :=
  "SELECT source_ip, COUNT(*) as total, SUM(CASE WHEN dkim_result = 1 AND spf_result = 1 THEN 1 ELSE 0 END) as success, SUM(CASE WHEN dkim_result = 0 OR spf_result = 0 THEN 1 ELSE 0 END) as failure FROM dmarc_reports WHERE customer_id = ?1 GROUP BY source_ip ORDER BY total DESC LIMIT 10".

Definition sql_compliance_trends (rev : revision) : string :=
  match rev with
  | AtRoot =>
      "SELECT date_range_begin, COUNT(*) as total, SUM(CASE WHEN disposition = 1 THEN 1 ELSE 0 END) as compliant, SUM(CASE WHEN disposition = 0 THEN 1 ELSE 0 END) as non_compliant FROM dmarc_reports WHERE customer_id = ?1 GROUP BY date_range_begin ORDER BY date_range_begin"
  | UnderDashboard =>
      "SELECT date_range_begin, date_range_end, COUNT(*) as total, SUM(CASE WHEN disposition = 1 THEN 1 ELSE 0 END) as compliant, SUM(CASE WHEN disposition = 0 THEN 1 ELSE 0 END) as non_compliant FROM dmarc_reports WHERE customer_id = ?1 GROUP BY date_range_begin, date_range_end ORDER BY date_range_begin"
  end.

Definition sql_failure_analysis : string :=
  "SELECT header_from, source_ip, COUNT(*) as total_failures, SUM(CASE WHEN dkim_result = 2 THEN 1 ELSE 0 END) as dkim_failures, SUM(CASE WHEN spf_result = 2 THEN 1 ELSE 0 END) as spf_failures, policy_override_type, error, COUNT(*) * 1.0 / SUM(count) as failure_rate FROM dmarc_reports WHERE customer_id = ?1 AND (dkim_result = 2 OR spf_result = 2) GROUP BY header_from, source_ip, policy_override_type, error ORDER BY total_failures DESC".

(** ** Handlers shared by the revisions *)

Section Handlers.
Variable rt : Runtime.

Definition zero_stats : object :=
  [("total_reports", of_Z 0); ("unique_ips", of_Z 0);
   ("unique_domains", of_Z 0); ("success_rate", of_Z 0)].

(** The four cards of the overview page. *)
Definition stats_cards (statsObj : object) : outcome (list (string * cell)) :=
  match toLocaleString (prop statsObj "total_reports") with
  | Throw e => Throw e
  | Ret total =>
  match toLocaleString (prop statsObj "unique_ips") with
  | Throw e => Throw e
  | Ret ips =>
  match toLocaleString (prop statsObj "unique_domains") with
  | Throw e => Throw e
  | Ret domains =>
  match toFixed (prop statsObj "success_rate") 1 with
  | Throw e => Throw e
  | Ret rate =>
      Ret [("Total Reports", [total]); ("Unique IPs", [ips]);
           ("Unique Domains", [domains]); ("Success Rate", [rate; Lit "%"])]
  end end end end.

(** [getLocationData(ip)] *)
Definition getLocationData (ip : value) : M value :=
  try_catch
    (response <- lift (fetch rt ip) ;;
     if negb (ok response) then throw (Error "HTTP error!")
     else
       locationData <- lift (json response) ;;
       ret (prop locationData "country"))
    (fun error => ret (VStr "Unknown")).

(** [Promise.all]: rejects as soon as one of the promises does. *)
Fixpoint promise_all {A} (ps : list (M A)) : M (list A) :=
  match ps with
  | [] => ret []
  | p :: ps' => x <- p ;; xs <- promise_all ps' ;; ret (x :: xs)
  end.

Definition geo_entry (r : row) : M object :=
  location <- getLocationData (prop r "source_ip") ;;
  ret [("ip", prop r "source_ip"); ("total", prop r "total");
       ("location", location)].

Definition geo_table (geoData : list object) : content :=
  Table "Geographic Distribution of Email Sources" None
    ["IP Address"; "Total"; "Location"]
    (map (fun r => [[Interp (prop r "ip")]; [Interp (prop r "total")];
                    [Interp (prop r "location")]]) geoData).

(** [((row.passed / row.total) * 100).toFixed(2)] *)
Definition pass_rate (r : row) : num :=
  mul (div (to_number (str_num rt) (prop r "passed"))
           (to_number (str_num rt) (prop r "total")))
      (Fin 100).

Definition domain_summary_table (data : list row) : content :=
  Table "Domain Summary" None
    ["Domain"; "Report Count"; "First Seen"; "Last Seen"; "Unique IPs"; "Pass Rate"]
    (map (fun r =>
            [[Interp (prop r "domain")];
             [Interp (prop r "report_count")];
             [LocaleDate (prop r "first_seen")];
             [LocaleDate (prop r "last_seen")];
             [Interp (prop r "unique_ips")];
             [ToFixed 2 (pass_rate r); Lit "%"]]) data).

(** [Math.floor(new Date(s).getTime() / 1000)] *)
Definition epoch_seconds (s : string) : value :=
  VNum (floor (div (date_parse rt s) (Fin 1000))).

(** The statement and the bound values of the detailed-reports route. *)
Definition detailed_query (rev : revision) (customerId : value)
           (startDate endDate domain : string) : string * list value :=
  let query := sql_detailed rev in
  let params := [customerId] in
  let '(query, params) :=
    if truthy (VStr startDate)
    then (query +:+ " AND date_range_begin >= ?2", (params ++ [epoch_seconds startDate])%list)
    else (query, params) in
  let '(query, params) :=
    if truthy (VStr endDate)
    then (query +:+ sql_end_filter rev, (params ++ [epoch_seconds endDate])%list)
    else (query, params) in
  let '(query, params) :=
    if truthy (VStr domain)
    then (query +:+ " AND header_from LIKE ?4", (params ++ [VStr ("%" +:+ domain +:+ "%")])%list)
    else (query, params) in
  (query +:+ " ORDER BY date_range_begin DESC LIMIT 1000", params).

End Handlers.

Section Detailed.
Variable rt : Runtime.

(** [x || 'None'] *)
Definition or_none (v : value) : value :=
  if truthy v then v else VStr "None".

(** [new Date(x * 1000).toLocaleDateString()] *)
Definition date_cell (v : value) : piece :=
  LocaleDate (VNum (mul (to_number (str_num rt) v) (Fin 1000))).

Definition date_range (rev : revision) (r : row) : cell :=
  match rev with
  | AtRoot => [date_cell (prop r "date_range_begin")]
  | UnderDashboard =>
      [date_cell (prop r "date_range_begin"); Lit " - ";
       date_cell (prop r "date_range_end")]
  end.

Definition detailed_table (rev : revision) (mark : value -> string)
           (disposition : value -> piece)
           (customerId : value) (startDate endDate domain : string)
           (data : list row) : content :=
  Table "Detailed Reports"
    (Some {| hidden_customer := customerId; start_value := startDate;
             end_value := endDate; domain_value := domain |})
    ["Date"; "Domain"; "IP"; "DKIM"; "SPF"; "Disposition"; "Override"; "Error"]
    (map (fun r =>
            [date_range rev r;
             [Interp (prop r "header_from")];
             [Interp (prop r "source_ip")];
             [Lit (mark (prop r "dkim_result"))];
             [Lit (mark (prop r "spf_result"))];
             [disposition (prop r "disposition")];
             [Interp (or_none (prop r "policy_override_type"))];
             [Interp (or_none (prop r "error"))]]) data).

(** The detailed-reports handler; the revisions differ in the statement
    and in how three cells are drawn. *)
Definition detailed_reports (rev : revision) (mark : value -> string)
           (disposition : value -> piece) (with_customer : bool)
  : Handler := fun c =>
  let customerId := c_get c "customerId" in
  let startDate := or_else (c_query c "start") "" in
  let endDate := or_else (c_query c "end") "" in
  let domain := or_else (c_query c "domain") "" in
  let '(query, params) := detailed_query rt rev customerId startDate endDate domain in
  data <- fetchData (env c) query (Some params) ;;
  ret (c_html c
         (Layout (if with_customer then Some customerId else None)
                 (detailed_table rev mark disposition customerId
                                 startDate endDate domain data))
         200).
(** A route that runs one statement for the tenant and draws one table row
    per result row; a cell may raise. *)
Definition table_route (sql heading : string) (head : list string)
           (cells : row -> outcome (list cell)) (with_customer : bool)
  : Handler := fun c =>
  let customerId := c_get c "customerId" in
  data <- fetchData (env c) sql (Some [customerId]) ;;
  rows <- lift (map_rows cells data) ;;
  ret (c_html c
         (Layout (if with_customer then Some customerId else None)
                 (Table heading None head rows))
         200).

Definition date_head (rev : revision) : string :=
  match rev with AtRoot => "Date" | UnderDashboard => "Date Range" end.

Definition auth_rates (rev : revision) : bool -> Handler :=
  table_route (sql_auth_rates rev) "Authentication Success/Failure Rates"
    [date_head rev; "Total"; "Success"; "Failure"]
    (fun r =>
       match toLocaleString (prop r "total") with
       | Throw e => Throw e
       | Ret total =>
       match toLocaleString (prop r "success") with
       | Throw e => Throw e
       | Ret success =>
       match toLocaleString (prop r "failure") with
       | Throw e => Throw e
       | Ret failure => Ret [date_range rev r; [total]; [success]; [failure]]
       end end end).

Definition top_senders : bool -> Handler :=
  table_route sql_top_senders "Top Sending IP Addresses and Their Performance"
    ["IP Address"; "Total"; "Success"; "Failure"]
    (fun r => Ret [[Interp (prop r "source_ip")]; [Interp (prop r "total")];
                   [Interp (prop r "success")]; [Interp (prop r "failure")]]).

Definition compliance_trends (rev : revision) : bool -> Handler :=
  table_route (sql_compliance_trends rev) "Compliance Trends and Policy Effectiveness"
    [date_head rev; "Total"; "Compliant"; "Non-Compliant"]
    (fun r => Ret [date_range rev r; [Interp (prop r "total")];
                   [Interp (prop r "compliant")];
                   [Interp (prop r "non_compliant")]]).

(** The failure rate is divided in the statement; the handler only scales it:
    [(row.failure_rate * 100).toFixed(1)]. *)
Definition failure_analysis : bool -> Handler :=
  table_route sql_failure_analysis "Failure Analysis"
    ["Domain"; "IP"; "Total Failures"; "DKIM Failures"; "SPF Failures";
     "Failure Rate"; "Override Type"; "Error"]
    (fun r => Ret [[Interp (prop r "header_from")];
                   [Interp (prop r "source_ip")];
                   [Interp (prop r "total_failures")];
                   [Interp (prop r "dkim_failures")];
                   [Interp (prop r "spf_failures")];
                   [ToFixed 1 (mul (to_number (str_num rt) (prop r "failure_rate"))
                                   (Fin 100)); Lit "%"];
                   [Interp (or_none (prop r "policy_override_type"))];
                   [Interp (or_none (prop r "error"))]]).
End Detailed.

(** Hono's answer when no route matches. *)
Definition notFound : Handler := fun c => ret (c_text c "404 Not Found" 404).

(** ** Token-parameter revisions ([app.use('*')] and [app.use('/dashboard/*')]) *)

Module Token.
Section App.
Variable rt : Runtime.

(** The auth middleware. *)
Definition auth : Middleware := fun c next =>
  let customerId := c_query c "customer" in
  if negb (truthy_str customerId) then
    ret (c_text c "Missing customer parameter" 400)
  else
    isValid <- lift (kv_get (DMARC_DOMAINS (env c)) customerId) ;;
    if negb (truthy_str isValid) then
      ret (c_text c "Invalid customer" 401)
    else
      next (c_set c "customerId" (of_option customerId)).

Definition overview : Handler := fun c =>
  let customerId := c_get c "customerId" in
  stats <- fetchData (env c) sql_overview (Some [customerId]) ;;
  let statsObj := match stats with r :: _ => r | [] => zero_stats end in
  cards <- lift (stats_cards statsObj) ;;
  ret (c_html c
         (Layout (Some customerId) (Stats [Lit "DMARC Analytics Overview"] cards))
         200).

(** The first revisions leave the location as a placeholder; the
    [/dashboard] revision asks the geolocation service. *)
Definition geo_distribution (rev : revision) : Handler := fun c =>
  let customerId := c_get c "customerId" in
  data <- fetchData (env c) sql_geo (Some [customerId]) ;;
  geoData <- match rev with
             | AtRoot =>
                 ret (map (fun r => [("ip", prop r "source_ip");
                                     ("total", prop r "total");
                                     ("location", VStr "Unknown")]) data)
             | UnderDashboard => promise_all (map (geo_entry rt) data)
             end ;;
  ret (c_html c (Layout (Some customerId) (geo_table geoData)) 200).

Definition domain_summary : Handler := fun c =>
  let customerId := c_get c "customerId" in
  data <- fetchData (env c) sql_domain_summary (Some [customerId]) ;;
  ret (c_html c (Layout (Some customerId) (domain_summary_table rt data)) 200).

(** [row.dkim_result ? '✓' : '✗'] *)
Definition mark (v : value) : string := if truthy v then "✓" else "✗".

Definition detailed (rev : revision) : Handler :=
  detailed_reports rt rev mark Interp true.

Definition routes (rev : revision) (p : string) : option Handler :=
  match rev with
  | AtRoot =>
      if (p =? "/")%string then Some overview
      else if (p =? "/auth-rates")%string then Some (auth_rates rt rev true)
      else if (p =? "/top-senders")%string then Some (top_senders true)
      else if (p =? "/geo-distribution")%string then Some (geo_distribution rev)
      else if (p =? "/compliance-trends")%string then Some (compliance_trends rt rev true)
      else if (p =? "/failure-analysis")%string then Some (failure_analysis rt true)
      else if (p =? "/domain-summary")%string then Some domain_summary
      else if (p =? "/detailed-reports")%string then Some (detailed rev)
      else None
  | UnderDashboard =>
      if (p =? "/dashboard")%string then Some overview
      else if (p =? "/dashboard/auth-rates")%string then Some (auth_rates rt rev true)
      else if (p =? "/dashboard/top-senders")%string then Some (top_senders true)
      else if (p =? "/dashboard/geo-distribution")%string then Some (geo_distribution rev)
      else if (p =? "/dashboard/compliance-trends")%string
           then Some (compliance_trends rt rev true)
      else if (p =? "/dashboard/failure-analysis")%string
           then Some (failure_analysis rt true)
      else if (p =? "/dashboard/domain-summary")%string then Some domain_summary
      else if (p =? "/dashboard/detailed-reports")%string then Some (detailed rev)
      else None
  end.

(** Whether the auth middleware is registered for the path. *)
Definition guarded (rev : revision) (p : string) : bool :=
  match rev with
  | AtRoot => true
  | UnderDashboard => (p =? "/dashboard")%string || String.prefix "/dashboard/" p
  end.

Definition handler_of (rev : revision) (r : Request) : Handler :=
  match routes rev (req_path r) with
  | Some h => if (req_method r =? "GET")%string then h else notFound
  | None => notFound
  end.

Definition app_fetch (rev : revision) (e : Env) (r : Request) : M Response :=
  let c := new_context e r in
  if guarded rev (req_path r) then dispatch auth (handler_of rev r) c
  else onError c (handler_of rev r c).
End App.
End Token.

(** ** Session-cookie revision (JWT cookie, registration and login) *)

(** [hono/jwt] and [bcryptjs] are dependencies of the worker: their
    functions are taken as given.  [verify] receives the current time and
    raises on a malformed token, a signature mismatch or an expired token;
    the salt drawn by [hashSync] is part of the function. *)
Record Libs := {
  sign : object -> string -> string;
  verify : string -> string -> Z -> outcome object;
  hashSync : string -> Z -> string;
  compare_hash : string -> string -> bool
}.

Module Session.
Section App.
Variable rt : Runtime.
Variable lib : Libs.

(** [bcrypt.compareSync(s, hash)]: the library raises unless both arguments
    are strings. *)
Definition compareSync (s hash : value) : outcome bool :=
  match s, hash with
  | VStr s, VStr h => Ret (compare_hash lib s h)
  | _, _ => Throw (Error "Illegal arguments")
  end.

Definition accounts_get (key : option string) : M (option string) :=
  fun w => (kv_get (accounts w) key, w).

(** [env.KV.put(key, value)]: raises on a key the binding refuses. *)
Definition accounts_put (key : option string) (v : string) : M unit :=
  fun w =>
    if refused_key (key_of key) then (Throw (Error "KV PUT failed"), w)
    else (Ret tt, {| accounts := <[key_of key := v]> (accounts w);
                     executed := executed w |}).

(** The auth middleware of [/dashboard/*]. *)
Definition auth : Middleware := fun c next =>
  let tokenToVerify := getCookie c "jwt" in
  if negb (truthy_str tokenToVerify) then
    ret (c_redirect c "/logout")
  else
    try_catch
      (decodedPayload <-
         lift (verify lib (key_of tokenToVerify) (JWT_SECRET_KEY (env c)) (date_now rt)) ;;
       if negb (truthy (prop decodedPayload "customerId")) then
         ret (c_redirect c "/logout")
       else
         next (c_set c "customerId" (prop decodedPayload "customerId")))
      (fun error => ret (c_redirect c "/logout")).

Definition overview : Handler := fun c =>
  let customerId := c_get c "customerId" in
  stats <- fetchData (env c) sql_overview_coalesce (Some [customerId]) ;;
  let statsObj := match stats with r :: _ => r | [] => zero_stats end in
  cards <- lift (stats_cards statsObj) ;;
  ret (c_html c
         (Layout None
            (Stats [Lit "DMARC Analytics Overview for "; Interp customerId] cards))
         200).

Definition geo_location : Handler := fun c =>
  let customerId := c_get c "customerId" in
  data <- fetchData (env c) sql_geo (Some [customerId]) ;;
  geoData <- promise_all (map (geo_entry rt) data) ;;
  ret (c_html c (Layout None (geo_table geoData)) 200).

Definition domain_summary : Handler := fun c =>
  let customerId := c_get c "customerId" in
  data <- fetchData (env c) sql_domain_summary (Some [customerId]) ;;
  ret (c_html c (Layout None (domain_summary_table rt data)) 200).

(** [v === n] for a number literal [n] *)
Definition is_number (v : value) (n : Z) : bool :=
  match v with
  | VNum (Fin q) => Qeq_bool q (inject_Z n)
  | _ => false
  end.

(** [row.dkim_result === DMARCResultType.pass ? '✓' : '✗'] *)
Definition mark (v : value) : string := if is_number v 1 then "✓" else "✗".

Definition formatDisposition (disposition : value) : piece :=
  if is_number disposition 3 then Lit "✓ Reject"
  else if is_number disposition 2 then Lit "⚠️ Quarantine"
  else if is_number disposition 1 then Lit "✗ None"
  else Lit "? Unknown".

Definition detailed : Handler :=
  detailed_reports rt UnderDashboard mark formatDisposition false.

Definition config : Handler := fun c =>
  ret (c_html c (Layout None (Config (c_get c "customerId"))) 200).

(** [{ customerId, exp: Math.floor(Date.now() / 1000) + 60 * 60 * 24 }] *)
Definition session_claims (customerId : option string) : object :=
  [("customerId", of_option customerId);
   ("exp", of_Z (date_now rt / 1000 + 60 * 60 * 24))].

(** [app.post('/register')] *)
Definition register : Handler := fun c =>
  let customerId := assoc (form (req c)) "customerId" in
  let password := assoc (form (req c)) "password" in
  alreadyExists <- accounts_get customerId ;;
  if truthy_str alreadyExists then
    ret (c_text c "Customer ID already exist" 409)
  else if truthy_str password then
    let saltRounds := 10 in
    let hashedPassword := hashSync lib (key_of password) saltRounds in
    _ <- accounts_put customerId hashedPassword ;;
    let token := sign lib (session_claims customerId) (JWT_SECRET_KEY (env c)) in
    let c := setCookie c "jwt" token
               {| httpOnly := true; maxAge := Some (24 * 60 * 60); expires := None;
                  secure := false; sameSite := None; path := None |} in
    ret (c_redirect c "/dashboard/config")
  else
    ret (c_text c "Invalid credentials" 401).

(** [app.post('/login')] *)
Definition login : Handler := fun c =>
  let customerId := assoc (form (req c)) "customerId" in
  let password := assoc (form (req c)) "password" in
  accountPassword <- accounts_get customerId ;;
  isMatch <- lift (compareSync (of_option password)
                     (match accountPassword with Some h => VStr h | None => VNull end)) ;;
  if isMatch : bool then
    let token := sign lib (session_claims customerId) (JWT_SECRET_KEY (env c)) in
    let c := setCookie c "jwt" token
               {| httpOnly := true; maxAge := None; expires := None;
                  secure := false; sameSite := None; path := None |} in
    ret (c_redirect c "/dashboard/")
  else
    ret (c_text c "Invalid credentials" 401).

(** [app.get('/logout')]: the cookie is overwritten with one that expired at
    the epoch. *)
Definition logout : Handler := fun c =>
  let c := setCookie c "jwt" ""
             {| httpOnly := true; maxAge := None; expires := Some 0;
                secure := true; sameSite := Some "strict"; path := Some "/" |} in
  ret (c_redirect c "/login").

Definition dashboard_routes (p : string) : option Handler :=
  if (p =? "/dashboard/")%string then Some overview
  else if (p =? "/dashboard/auth-rates")%string
       then Some (auth_rates rt UnderDashboard false)
  else if (p =? "/dashboard/top-senders")%string then Some (top_senders false)
  else if (p =? "/dashboard/geo-location")%string then Some geo_location
  else if (p =? "/dashboard/compliance-trends")%string
       then Some (compliance_trends rt UnderDashboard false)
  else if (p =? "/dashboard/failure-analysis")%string
       then Some (failure_analysis rt false)
  else if (p =? "/dashboard/domain-summary")%string then Some domain_summary
  else if (p =? "/dashboard/detailed-reports")%string then Some detailed
  else if (p =? "/dashboard/config")%string then Some config
  else None.

Definition public_routes (m p : string) : Handler :=
  if (m =? "POST")%string && (p =? "/register")%string then register
  else if (m =? "POST")%string && (p =? "/login")%string then login
  else if (m =? "GET")%string && (p =? "/logout")%string then logout
  else if (m =? "GET")%string && (p =? "/login")%string
       then (fun c => ret (c_html c LoginForm 200))
  else if (m =? "GET")%string && (p =? "/register")%string
       then (fun c => ret (c_html c RegisterForm 200))
  else if (m =? "GET")%string && (p =? "/")%string
       then (fun c => ret (c_html c Landing 200))
  else notFound.

Definition guarded (p : string) : bool :=
  (p =? "/dashboard")%string || String.prefix "/dashboard/" p.

Definition handler_of (r : Request) : Handler :=
  match dashboard_routes (req_path r) with
  | Some h => if (req_method r =? "GET")%string then h else notFound
  | None => notFound
  end.

Definition app_fetch (e : Env) (r : Request) : M Response :=
  let c := new_context e r in
  if guarded (req_path r) then dispatch auth (handler_of r) c
  else onError c (public_routes (req_method r) (req_path r) c).
End App.
End Session.

(** ** The numbered parameters of a statement *)

Definition digit_of (a : ascii) : option nat :=
  let n := nat_of_ascii a in
  if (48 <=? n)%nat && (n <=? 57)%nat then Some (n - 48)%nat else None.

(** [scan s cur]: the indices [?N] of [s] from left to right; [cur] is the
    index being read, if the scan is inside one. *)
Fixpoint scan (s : string) (cur : option nat) : list nat :=
  match s with
  | EmptyString => match cur with Some n => [n] | None => [] end
  | String a s' =>
      match cur, digit_of a with
      | Some n, Some d => scan s' (Some (10 * n + d)%nat)
      | Some n, None =>
          n :: scan s' (if Ascii.eqb a "?" then Some 0%nat else None)
      | None, _ => scan s' (if Ascii.eqb a "?" then Some 0%nat else None)
      end
  end.

Definition placeholders (sql : string) : list nat := scan sql None.

(** SQLite numbers the parameters of a statement up to its largest index. *)
Definition parameter_count (sql : string) : nat := fold_right Nat.max 0%nat (placeholders sql).

(** ** The [dmarc_reports] table behind the overview statements *)

Record report := {
  customer_id : string;
  source_ip : string;
  header_from : string;
  dkim_result : Z;
  spf_result : Z
}.

Definition count_distinct (l : list string) : Z :=
  Z.of_nat (length (nodup string_dec l)).

(** [SUM(CASE WHEN dkim_result = 1 AND spf_result = 1 THEN 1 ELSE 0 END)] over
    at least one row *)
Definition passed_count (rs : list report) : Z :=
  Z.of_nat (length (List.filter (fun r => (dkim_result r =? 1) && (spf_result r =? 1)) rs)).

Definition percentage (rs : list report) : value :=
  VNum (Fin (Qred (inject_Z (passed_count rs) * 100 / inject_Z (Z.of_nat (length rs))))).

(** [SUM(...) * 100.0 / COUNT( * )]: the sum of no rows is NULL, and so is the
    quotient. *)
Definition success_rate (rs : list report) : value :=
  match rs with
  | [] => VNull
  | _ => percentage rs
  end.

(** [COALESCE(SUM(...) * 100.0 / NULLIF(COUNT( * ), 0), 0)] *)
Definition success_rate_coalesce (rs : list report) : value :=
  match rs with
  | [] => of_Z 0
  | _ => percentage rs
  end.

(** An aggregate without GROUP BY answers with exactly one row, also when no
    row matches. *)
Definition overview_row (rate : list report -> value) (rs : list report) : row :=
  [("total_reports", of_Z (Z.of_nat (length rs)));
   ("unique_ips", of_Z (count_distinct (map source_ip rs)));
   ("unique_domains", of_Z (count_distinct (map header_from rs)));
   ("success_rate", rate rs)].

(** A database that holds the given reports and answers the two overview
    statements as SQLite does; other statements are not modelled and raise. *)
Definition reports_db (table : list report) : D1Database :=
  {| d1_prepare := fun q => Ret {| stmt_sql := q; stmt_params := [] |};
     d1_bind := fun st ps => Ret {| stmt_sql := stmt_sql st; stmt_params := ps |};
     d1_all := fun st =>
       match stmt_params st with
       | [VStr customer] =>
           let matching :=
             List.filter (fun r => (customer_id r =? customer)%string) table in
           if (stmt_sql st =? sql_overview)%string then
             Ret {| results := Some [overview_row success_rate matching] |}
           else if (stmt_sql st =? sql_overview_coalesce)%string then
             Ret {| results := Some [overview_row success_rate_coalesce matching] |}
           else Throw (Error "statement not modelled")
       | _ => Throw (Error "D1_TYPE_ERROR")
       end |}.

(** A database that checks, as D1 does, that a statement is given exactly as
    many values as it has parameters, and then answers with [answer]. *)
Definition checked_db (answer : D1PreparedStatement -> list row) : D1Database :=
  {| d1_prepare := fun q => Ret {| stmt_sql := q; stmt_params := [] |};
     d1_bind := fun st ps => Ret {| stmt_sql := stmt_sql st; stmt_params := ps |};
     d1_all := fun st =>
       if (length (stmt_params st) =? parameter_count (stmt_sql st))%nat
       then Ret {| results := Some (answer st) |}
       else Throw (Error "D1_ERROR: Wrong number of parameter bindings for SQL query.") |}.

(** A database that cannot be reached. *)
Definition unreachable_db : D1Database :=
  {| d1_prepare := fun q => Throw (Error "D1_ERROR");
     d1_bind := fun st ps => Throw (Error "D1_ERROR");
     d1_all := fun st => Throw (Error "D1_ERROR") |}.

(** ** Sample bindings, used to run the worker on concrete requests *)

Module Sample.

Definition rt : Runtime :=
  {| str_num := fun _ => NaN;
     date_parse := fun _ => NaN;
     date_now := 1700000000000;
     fetch := fun ip =>
       if truthy ip then
         Ret {| ok := true; http_status := 200;
                json := Ret [("country", VStr "Norway")] |}
       else Throw (Error "network") |}.

(** A stand-in for the two libraries: a token is the key followed by the
    tenant, a hash is the password behind a marker. *)
Definition lib : Libs :=
  {| sign := fun claims key =>
       match prop claims "customerId" with
       | VStr id => key +:+ ":" +:+ id
       | _ => key +:+ ":"
       end;
     verify := fun token key now =>
       if String.prefix (key +:+ ":") token then
         Ret [("customerId",
               VStr (substring (S (String.length key))
                               (String.length token) token))]
       else Throw (Error "JwtTokenInvalid");
     hashSync := fun s rounds => "$2a$" +:+ s;
     compare_hash := fun s h => (h =? "$2a$" +:+ s)%string |}.

Definition env (db : D1Database) : Env :=
  {| DB := db;
     DMARC_DOMAINS := {[ "acme" := "1" ]};
     JWT_SECRET_KEY := "secret" |}.

Definition get (p : string) (q : list (string * string)) : Request :=
  {| req_method := "GET"; req_path := p; query_params := q;
     cookie_header := []; form := [] |}.

Definition get_with_cookie (p : string) (jwt : string) : Request :=
  {| req_method := "GET"; req_path := p; query_params := [];
     cookie_header := [("jwt", jwt)]; form := [] |}.

Definition post (p : string) (customerId password : string) : Request :=
  {| req_method := "POST"; req_path := p; query_params := [];
     cookie_header := [];
     form := [("customerId", customerId); ("password", password)] |}.

Definition empty : world := World ∅ [].

Definition registered : world := World {[ "acme" := "$2a$hunter2" ]} [].

(** A row of the domain summary whose [total] is zero. *)
Definition zero_total_row : row :=
  [("domain", VStr "example.org"); ("report_count", of_Z 0);
   ("first_seen", VNull); ("last_seen", VNull); ("unique_ips", of_Z 0);
   ("passed", of_Z 0); ("total", of_Z 0)].

End Sample.

(** ** Notions used by the statements below *)

(** The verification the guard asks of [hono/jwt]. *)
Definition verified (rt : Runtime) (lib : Libs) (e : Env) (token : string)
  : outcome object :=
  verify lib token (JWT_SECRET_KEY e) (date_now rt).

(** The cookie that carries a freshly signed session token. *)
Definition session_cookie (rt : Runtime) (lib : Libs) (e : Env)
           (customerId : option string) (o : CookieOptions) : Cookie :=
  {| cookie_name := "jwt";
     cookie_value := sign lib (Session.session_claims rt customerId) (JWT_SECRET_KEY e);
     cookie_options := o |}.

(** A computation that leaves the credential store alone. *)
Definition keeps_accounts {A} (m : M A) : Prop :=
  forall w, accounts (snd (m w)) = accounts w.

(** The worker serving a request and leaving the world to the next one; the
    clock may differ from request to request. *)
Definition serve (lib : Libs) (e : Env) (w : world) (x : Runtime * Request) : world :=
  snd (Session.app_fetch (fst x) lib e (snd x) w).

Definition serve_all (lib : Libs) (e : Env) (xs : list (Runtime * Request))
           (w : world) : world :=
  fold_left (serve lib e) xs w.

(** A lookup that failed: [fetch] rejected (network error, timeout) or the
    status was not a success. *)
Definition lookup_failed (o : outcome FetchResponse) : Prop :=
  match o with
  | Throw _ => True
  | Ret response => ok response = false
  end.

(** What [getLocationData] resolves to, read off the answer of [fetch]. *)
Definition location_of (o : outcome FetchResponse) : value :=
  match o with
  | Throw _ => VStr "Unknown"
  | Ret response =>
      if ok response then
        match json response with
        | Ret locationData => prop locationData "country"
        | Throw _ => VStr "Unknown"
        end
      else VStr "Unknown"
  end.

Definition located (rt : Runtime) (r : row) : object :=
  [("ip", prop r "source_ip"); ("total", prop r "total");
   ("location", location_of (fetch rt (prop r "source_ip")))].

(** The request carries a value for the filter (the form of the page always
    sends the three names; an empty value is no filter). *)
Definition supplied (c : Context) (name : string) : bool :=
  truthy_str (c_query c name).

(** ** safeStringify *)

(** [s.replace(/c/g, by)] for a one-character pattern *)
Fixpoint replace_all (c : ascii) (by_ : string) (s : string) : string :=
  match s with
  | EmptyString => EmptyString
  | String a s' =>
      if Ascii.eqb a c then by_ +:+ replace_all c by_ s'
      else String a (replace_all c by_ s')
  end.

(** [safeStringify(obj)]; [JSON.stringify] is the runtime's and gives
    [undefined] for a value that has no JSON text, on which [.replace]
    raises. *)
Definition safeStringify {A} (stringify : A -> option string) (obj : A)
  : outcome string :=
  match stringify obj with
  | None => Throw (TypeError "Cannot read properties of undefined")
  | Some text =>
      Ret (replace_all "&" "\u0026"
             (replace_all ">" "\u003e"
                (replace_all "<" "\u003c" text)))
  end.

(** ** Further notions used by the statements below *)

(** A database whose [prepare] and [bind] build the statement they are asked
    for (what it answers to [all] is left open). *)
Definition faithful (db : D1Database) : Prop :=
  (forall q, d1_prepare db q = Ret {| stmt_sql := q; stmt_params := [] |}) /\
  (forall st ps,
     d1_bind db st ps = Ret {| stmt_sql := stmt_sql st; stmt_params := ps |}).

(** The statement filters on the tenant column and binds [customerId] to it. *)
Definition scoped (customerId : value) (st : D1PreparedStatement) : Prop :=
  nth_error (stmt_params st) 0 = Some customerId /\
  String.index 0 "customer_id = ?1" (stmt_sql st) <> None.

(** The statements a computation adds to the record of the world are at most
    one, and scoped to [customerId]. *)
Definition runs_scoped {A} (customerId : value) (m : M A) : Prop :=
  forall w, exists new,
    executed (snd (m w)) = (new ++ executed w)%list /\
    (length new <= 1)%nat /\ Forall (scoped customerId) new.

(** A computation that runs no statement. *)
Definition quiet {A} (m : M A) : Prop :=
  forall w, executed (snd (m w)) = executed w.

(** Every response of the computation has one of the given status codes. *)
Definition answers (codes : list Z) (m : M Response) : Prop :=
  forall w resp w', m w = (Ret resp, w') -> In (status resp) codes.

(** How many of the flags are set. *)
Definition count_true (bs : list bool) : nat :=
  length (List.filter (fun b : bool => b) bs).

(** A value on which [toLocaleString] can be called: a number or a string. *)
Definition has_methods (v : value) : bool :=
  match v with
  | VNum _ | VStr _ => true
  | VUndefined | VNull => false
  end.

(** The three counts of an auth-rates row can be formatted. *)
Definition countable_row (r : row) : bool :=
  has_methods (prop r "total") && has_methods (prop r "success")
  && has_methods (prop r "failure").

(** The handler answers with a table that has one row per row of [data]. *)
Definition draws_table (h : Handler) (c : Context) (w w' : world)
           (data : list row) : Prop :=
  exists customer heading filter head rows,
    h c w = (Ret (c_html c (Layout customer (Table heading filter head rows)) 200), w')
    /\ length rows = length data.

(** * Properties *)

(** ** The monad *)

Ltac run_monad :=
  unfold bind, ret, throw, lift, try_catch, run_all in *; simpl in *.

Lemma onError_returns (c : Context) (m : M Response) (w : world) :
  exists resp w', onError c m w = (Ret resp, w').
Proof.
  unfold onError. run_monad.
  destruct (m w) as [[resp | e] w']; eauto.
Qed.

Lemma onError_idem (c c' : Context) (m : M Response) (w : world) :
  onError c (onError c' m) w = onError c' m w.
Proof.
  unfold onError. run_monad.
  destruct (m w) as [[resp | e] w']; reflexivity.
Qed.

Lemma onError_ret (c : Context) (m : M Response) (w w' : world) (resp : Response) :
  m w = (Ret resp, w') -> onError c m w = (Ret resp, w').
Proof. intros H. unfold onError. run_monad. rewrite H. reflexivity. Qed.

Lemma onError_throw (c : Context) (m : M Response) (w w' : world) (e : exn) :
  m w = (Throw e, w') -> onError c m w = (Ret (c_html c ErrorPage 500), w').
Proof. intros H. unfold onError. run_monad. rewrite H. reflexivity. Qed.

(** ** fetchData *)

Lemma fetchData_spec (env : Env) (query : string) (params : option (list value))
      (w : world) :
  exists w',
    fetchData env query params w =
      (Ret (match d1_exec (DB env) query params with
            | Ret result => match results result with Some rs => rs | None => [] end
            | Throw _ => []
            end), w')
    /\ accounts w' = accounts w.
Proof.
  unfold fetchData, d1_exec. run_monad.
  destruct (d1_prepare (DB env) query) as [stmt | e]; [| eauto].
  destruct params as [ps |]; simpl.
  - destruct (d1_bind (DB env) stmt ps) as [stmt' | e]; [| eauto].
    destruct (d1_all (DB env) stmt') as [result | e]; eauto.
  - destruct (d1_all (DB env) stmt) as [result | e]; eauto.
Qed.

(** C7: [fetchData] always hands a list of rows to its caller, and the list is
    empty whenever one of the database calls raised: the failure is caught
    inside the helper and never reaches the handler. *)
Theorem fetchData_degrades (env : Env) (query : string)
        (params : option (list value)) (w : world) :
  (exists rows, fst (fetchData env query params w) = Ret rows) /\
  (forall e, d1_exec (DB env) query params = Throw e ->
             fst (fetchData env query params w) = Ret []).
Proof.
  destruct (fetchData_spec env query params w) as (w' & Hrun & _).
  rewrite Hrun. split.
  - eauto.
  - intros e He. rewrite He. reflexivity.
Qed.

Lemma fetchData_degrades_witness :
  d1_exec (DB (Sample.env unreachable_db)) sql_overview (Some [VStr "acme"])
    = Throw (Error "D1_ERROR") /\
  fst (fetchData (Sample.env unreachable_db) sql_overview (Some [VStr "acme"])
                 Sample.empty) = Ret [].
Proof.
  split; [reflexivity |].
  apply (proj2 (fetchData_degrades (Sample.env unreachable_db) sql_overview
                  (Some [VStr "acme"]) Sample.empty) (Error "D1_ERROR")).
  reflexivity.
Defined.

(** ** The access guards *)

Lemma truthy_str_nonempty (id : string) : id <> "" -> truthy_str (Some id) = true.
Proof.
  intros Hid. unfold truthy_str. simpl.
  destruct (String.eqb_spec id ""); [contradiction | reflexivity].
Qed.

Lemma truthy_str_false (o : option string) :
  truthy_str o = false <-> o = None \/ o = Some "".
Proof.
  unfold truthy_str. destruct o as [s |]; simpl.
  - destruct (String.eqb_spec s ""); subst; simpl; split; intros H; auto.
    + discriminate.
    + destruct H as [H | H]; [discriminate | congruence].
  - split; auto.
Qed.

Lemma c_get_set (c : Context) (k : string) (v : value) : c_get (c_set c k v) k = v.
Proof. unfold c_get, c_set. simpl. rewrite lookup_insert_eq. reflexivity. Qed.

Lemma token_auth_missing (c : Context) (next : Handler) (w : world) :
  c_query c "customer" = None \/ c_query c "customer" = Some "" ->
  Token.auth c next w = (Ret (c_text c "Missing customer parameter" 400), w).
Proof.
  intros H. apply truthy_str_false in H.
  unfold Token.auth. rewrite H. reflexivity.
Qed.

Lemma kv_get_accepted (kv : gmap string string) (k : string) :
  refused_key k = false -> kv_get kv (Some k) = Ret (kv !! k).
Proof. intros H. unfold kv_get. simpl. rewrite H. reflexivity. Qed.

Lemma kv_get_refused (kv : gmap string string) (k : string) :
  refused_key k = true -> kv_get kv (Some k) = Throw (Error "KV GET failed").
Proof. intros H. unfold kv_get. simpl. rewrite H. reflexivity. Qed.

Lemma token_auth_invalid (c : Context) (next : Handler) (w : world) (id : string) :
  c_query c "customer" = Some id -> id <> "" -> refused_key id = false ->
  truthy_str (DMARC_DOMAINS (env c) !! id) = false ->
  Token.auth c next w = (Ret (c_text c "Invalid customer" 401), w).
Proof.
  intros Hq Hid Hkey Hkv. unfold Token.auth.
  rewrite Hq, (truthy_str_nonempty id Hid). simpl.
  rewrite (kv_get_accepted _ id Hkey). run_monad. rewrite Hkv. reflexivity.
Qed.

Lemma token_auth_valid (c : Context) (next : Handler) (w : world) (id : string) :
  c_query c "customer" = Some id -> id <> "" -> refused_key id = false ->
  truthy_str (DMARC_DOMAINS (env c) !! id) = true ->
  Token.auth c next w = next (c_set c "customerId" (VStr id)) w.
Proof.
  intros Hq Hid Hkey Hkv. unfold Token.auth.
  rewrite Hq, (truthy_str_nonempty id Hid). simpl.
  rewrite (kv_get_accepted _ id Hkey). run_monad. rewrite Hkv. reflexivity.
Qed.

Lemma token_auth_raises (c : Context) (next : Handler) (w : world) (id : string) :
  c_query c "customer" = Some id -> id <> "" -> refused_key id = true ->
  Token.auth c next w = (Throw (Error "KV GET failed"), w).
Proof.
  intros Hq Hid Hkey. unfold Token.auth.
  rewrite Hq, (truthy_str_nonempty id Hid). simpl.
  rewrite (kv_get_refused _ id Hkey). reflexivity.
Qed.

Lemma token_accepts (rt : Runtime) (rev : revision) (e : Env) (r : Request)
      (w : world) (id : string) :
  Token.guarded rev (req_path r) = true ->
  c_query (new_context e r) "customer" = Some id -> id <> "" ->
  refused_key id = false ->
  truthy_str (DMARC_DOMAINS e !! id) = true ->
  Token.app_fetch rt rev e r w =
    onError (c_set (new_context e r) "customerId" (VStr id))
            (Token.handler_of rt rev r (c_set (new_context e r) "customerId" (VStr id)))
            w.
Proof.
  intros Hguard Hq Hid Hkey Hkv. unfold Token.app_fetch. rewrite Hguard.
  unfold dispatch. unfold onError at 1. run_monad.
  rewrite (token_auth_valid (new_context e r) _ w id Hq Hid Hkey Hkv).
  destruct (onError_returns (c_set (new_context e r) "customerId" (VStr id))
              (Token.handler_of rt rev r
                 (c_set (new_context e r) "customerId" (VStr id))) w)
    as (resp & w' & Hrun).
  rewrite Hrun. reflexivity.
Qed.

Lemma token_refuses (rt : Runtime) (rev : revision) (e : Env) (r : Request)
      (w : world) (id : string) :
  Token.guarded rev (req_path r) = true ->
  c_query (new_context e r) "customer" = Some id -> id <> "" ->
  refused_key id = true ->
  Token.app_fetch rt rev e r w =
    (Ret {| status := 500; body := Html ErrorPage; location := None;
            set_cookie := [] |}, w).
Proof.
  intros Hguard Hq Hid Hkey. unfold Token.app_fetch. rewrite Hguard.
  unfold dispatch.
  apply onError_throw with (e := Error "KV GET failed").
  apply token_auth_raises with (id := id); assumption.
Qed.

(** C1, as the code has it: on every guarded route of the token-parameter
    revisions, a [customer] parameter that is absent or empty is answered with
    status 400, and a non-empty one whose allowlist lookup returns a falsy
    value with status 401; a non-empty one that the KV binding refuses as a
    key makes the lookup raise and is answered with the 500 page.  In the
    three cases the world is left untouched (no statement is run against the
    database, whatever the route handler is).  Otherwise the identifier is
    stored in the context and the route handler runs on it. *)
Theorem token_guard (rt : Runtime) (rev : revision) (e : Env) (r : Request)
        (w : world) :
  Token.guarded rev (req_path r) = true ->
  let c := new_context e r in
  (c_query c "customer" = None \/ c_query c "customer" = Some "" ->
   Token.app_fetch rt rev e r w =
     (Ret (c_text c "Missing customer parameter" 400), w))
  /\
  (forall id, c_query c "customer" = Some id -> id <> "" ->
     kv_get (DMARC_DOMAINS e) (Some id) = Ret (DMARC_DOMAINS e !! id) ->
     truthy_str (DMARC_DOMAINS e !! id) = false ->
     Token.app_fetch rt rev e r w = (Ret (c_text c "Invalid customer" 401), w))
  /\
  (forall id, c_query c "customer" = Some id -> id <> "" ->
     kv_get (DMARC_DOMAINS e) (Some id) = Ret (DMARC_DOMAINS e !! id) ->
     truthy_str (DMARC_DOMAINS e !! id) = true ->
     let c' := c_set c "customerId" (VStr id) in
     c_get c' "customerId" = VStr id /\
     Token.app_fetch rt rev e r w = onError c' (Token.handler_of rt rev r c') w)
  /\
  (forall id err, c_query c "customer" = Some id -> id <> "" ->
     kv_get (DMARC_DOMAINS e) (Some id) = Throw err ->
     Token.app_fetch rt rev e r w = (Ret (c_html c ErrorPage 500), w)).
Proof.
  intros Hguard c.
  assert (Hkey : forall id o, kv_get (DMARC_DOMAINS e) (Some id) = Ret o ->
                              refused_key id = false).
  { intros id o. unfold kv_get. simpl. destruct (refused_key id); [discriminate | reflexivity]. }
  split; [| split; [| split]].
  - intros H. unfold Token.app_fetch. rewrite Hguard. fold c.
    apply onError_ret, token_auth_missing, H.
  - intros id Hq Hid Hget Hkv. unfold Token.app_fetch. rewrite Hguard. fold c.
    apply onError_ret, token_auth_invalid with (id := id); eauto.
  - intros id Hq Hid Hget Hkv. split; [apply c_get_set |].
    apply token_accepts; eauto.
  - intros id err Hq Hid Hget.
    apply (token_refuses rt rev e r w id Hguard Hq Hid).
    unfold kv_get in Hget. simpl in Hget.
    destruct (refused_key id); [reflexivity | discriminate].
Qed.

Lemma token_guard_witness :
  Token.app_fetch Sample.rt AtRoot (Sample.env unreachable_db)
                  (Sample.get "/" []) Sample.empty
  = (Ret (c_text (new_context (Sample.env unreachable_db) (Sample.get "/" []))
                 "Missing customer parameter" 400), Sample.empty)
  /\
  Token.app_fetch Sample.rt AtRoot (Sample.env unreachable_db)
                  (Sample.get "/" [("customer", "globex")]) Sample.empty
  = (Ret (c_text (new_context (Sample.env unreachable_db)
                              (Sample.get "/" [("customer", "globex")]))
                 "Invalid customer" 401), Sample.empty)
  /\
  Token.app_fetch Sample.rt AtRoot (Sample.env unreachable_db)
                  (Sample.get "/" [("customer", "..")]) Sample.empty
  = (Ret (c_html (new_context (Sample.env unreachable_db)
                              (Sample.get "/" [("customer", "..")]))
                 ErrorPage 500), Sample.empty).
Proof.
  split; [| split].
  - apply (proj1 (token_guard Sample.rt AtRoot (Sample.env unreachable_db)
                    (Sample.get "/" []) Sample.empty eq_refl)).
    left. reflexivity.
  - apply (proj1 (proj2 (token_guard Sample.rt AtRoot (Sample.env unreachable_db)
                           (Sample.get "/" [("customer", "globex")]) Sample.empty
                           eq_refl)) "globex").
    + reflexivity.
    + discriminate.
    + reflexivity.
    + reflexivity.
  - apply (proj2 (proj2 (proj2 (token_guard Sample.rt AtRoot
                                  (Sample.env unreachable_db)
                                  (Sample.get "/" [("customer", "..")]) Sample.empty
                                  eq_refl))) ".." (Error "KV GET failed")).
    + reflexivity.
    + discriminate.
    + reflexivity.
Defined.

(** C1 as stated fails on an empty parameter: [?customer=] is present and the
    allowlist holds nothing for it, yet the answer is 400 and not 401. *)
Lemma token_guard_empty_parameter :
  c_query (new_context (Sample.env unreachable_db)
                       (Sample.get "/" [("customer", "")])) "customer" = Some ""
  /\ truthy_str (DMARC_DOMAINS (Sample.env unreachable_db) !! "") = false
  /\ fst (Token.app_fetch Sample.rt AtRoot (Sample.env unreachable_db)
                          (Sample.get "/" [("customer", "")]) Sample.empty)
     = Ret {| status := 400; body := Text "Missing customer parameter";
              location := None; set_cookie := [] |}.
Proof. repeat split. Qed.

Section SessionGuard.
Variable rt : Runtime.
Variable lib : Libs.

Lemma session_auth_no_cookie (c : Context) (next : Handler) (w : world) :
  getCookie c "jwt" = None ->
  Session.auth rt lib c next w = (Ret (c_redirect c "/logout"), w).
Proof. intros H. unfold Session.auth. rewrite H. reflexivity. Qed.

Lemma session_auth_rejected (c : Context) (next : Handler) (w : world)
      (t : string) (err : exn) :
  getCookie c "jwt" = Some t -> verified rt lib (env c) t = Throw err ->
  Session.auth rt lib c next w = (Ret (c_redirect c "/logout"), w).
Proof.
  unfold verified. intros Hc Hv. unfold Session.auth. rewrite Hc.
  destruct (truthy_str (Some t)); simpl; [| reflexivity].
  run_monad. rewrite Hv. reflexivity.
Qed.

Lemma session_auth_no_tenant (c : Context) (next : Handler) (w : world)
      (t : string) (p : object) :
  getCookie c "jwt" = Some t -> verified rt lib (env c) t = Ret p ->
  truthy (prop p "customerId") = false ->
  Session.auth rt lib c next w = (Ret (c_redirect c "/logout"), w).
Proof.
  unfold verified. intros Hc Hv Hp. unfold Session.auth. rewrite Hc.
  destruct (truthy_str (Some t)); simpl; [| reflexivity].
  run_monad. rewrite Hv, Hp. reflexivity.
Qed.

Lemma session_auth_accepted (c : Context) (next : Handler) (w : world)
      (t : string) (p : object) :
  getCookie c "jwt" = Some t -> t <> "" -> verified rt lib (env c) t = Ret p ->
  truthy (prop p "customerId") = true ->
  Session.auth rt lib c next w =
    try_catch (next (c_set c "customerId" (prop p "customerId")))
              (fun error => ret (c_redirect c "/logout")) w.
Proof.
  unfold verified. intros Hc Ht Hv Hp. unfold Session.auth.
  rewrite Hc, (truthy_str_nonempty t Ht). simpl.
  run_monad. rewrite Hv, Hp. reflexivity.
Qed.

(** C2: on every route under [/dashboard], a request without the [jwt]
    cookie, with a cookie that [verify] refuses for the secret at the
    current time (malformed, signature mismatch, expired), or with a
    verified payload whose [customerId] is falsy (missing, [null], the empty
    string, zero, [NaN]), is redirected to [/logout] with the world
    untouched: the route handler does not run.  A cookie that verifies to a
    payload whose [customerId] is truthy has that value stored in the
    context and the route handler runs on it.  Every request is in one of
    these four cases.  [verify] is the library's: as any JWT verifier it
    refuses the empty token. *)
Theorem session_guard (e : Env) (r : Request) (w : world) :
  Session.guarded (req_path r) = true ->
  (forall key now, exists err, verify lib "" key now = Throw err) ->
  let c := new_context e r in
  (getCookie c "jwt" = None \/
   (exists t err, getCookie c "jwt" = Some t /\ verified rt lib e t = Throw err) \/
   (exists t p, getCookie c "jwt" = Some t /\ verified rt lib e t = Ret p /\
                truthy (prop p "customerId") = false) ->
   Session.app_fetch rt lib e r w = (Ret (c_redirect c "/logout"), w))
  /\
  (forall t p,
     getCookie c "jwt" = Some t -> verified rt lib e t = Ret p ->
     truthy (prop p "customerId") = true ->
     c_get (c_set c "customerId" (prop p "customerId")) "customerId"
     = prop p "customerId" /\
     Session.app_fetch rt lib e r w =
       onError (c_set c "customerId" (prop p "customerId"))
               (Session.handler_of rt r
                  (c_set c "customerId" (prop p "customerId"))) w)
  /\
  (getCookie c "jwt" = None \/
   (exists t err, getCookie c "jwt" = Some t /\ verified rt lib e t = Throw err) \/
   (exists t p, getCookie c "jwt" = Some t /\ verified rt lib e t = Ret p /\
                truthy (prop p "customerId") = false) \/
   (exists t p, getCookie c "jwt" = Some t /\ verified rt lib e t = Ret p /\
                truthy (prop p "customerId") = true)).
Proof.
  intros Hguard Hempty c. unfold Session.app_fetch. rewrite Hguard. fold c.
  unfold dispatch. split; [| split].
  - intros Hrej. unfold onError at 1. run_monad.
    destruct Hrej as [Hc | [(t & err & Hc & Hv) | (t & p & Hc & Hv & Hp)]].
    + rewrite (session_auth_no_cookie c _ w Hc). reflexivity.
    + rewrite (session_auth_rejected c _ w t err Hc Hv). reflexivity.
    + rewrite (session_auth_no_tenant c _ w t p Hc Hv Hp). reflexivity.
  - intros t p Hc Hv Hp. split; [apply c_get_set |].
    assert (Ht : t <> "").
    { intros ->. destruct (Hempty (JWT_SECRET_KEY e) (date_now rt)) as [err Herr].
      unfold verified in Hv. congruence. }
    unfold onError at 1. run_monad.
    rewrite (session_auth_accepted c _ w t p Hc Ht Hv Hp). run_monad.
    destruct (onError_returns (c_set c "customerId" (prop p "customerId"))
                (Session.handler_of rt r
                   (c_set c "customerId" (prop p "customerId"))) w)
      as (resp & w' & Hrun).
    rewrite Hrun. reflexivity.
  - destruct (getCookie c "jwt") as [t |]; [right | left; reflexivity].
    destruct (verified rt lib e t) as [p | err] eqn:Hv.
    + right. destruct (truthy (prop p "customerId")) eqn:Hp.
      * right. exists t, p. auto.
      * left. exists t, p. auto.
    + left. exists t, err. auto.
Qed.
End SessionGuard.

Lemma sample_verify_empty (key : string) (now : Z) :
  exists err, verify Sample.lib "" key now = Throw err.
Proof. exists (Error "JwtTokenInvalid"). destruct key; reflexivity. Qed.

Lemma session_guard_witness :
  Session.app_fetch Sample.rt Sample.lib (Sample.env unreachable_db)
                    (Sample.get_with_cookie "/dashboard/config" "forged:acme")
                    Sample.registered
  = (Ret (c_redirect
            (new_context (Sample.env unreachable_db)
               (Sample.get_with_cookie "/dashboard/config" "forged:acme"))
            "/logout"), Sample.registered)
  /\
  Session.app_fetch Sample.rt Sample.lib (Sample.env unreachable_db)
                    (Sample.get_with_cookie "/dashboard/config" "secret:")
                    Sample.registered
  = (Ret (c_redirect
            (new_context (Sample.env unreachable_db)
               (Sample.get_with_cookie "/dashboard/config" "secret:"))
            "/logout"), Sample.registered)
  /\
  fst (Session.app_fetch Sample.rt Sample.lib (Sample.env unreachable_db)
                         (Sample.get_with_cookie "/dashboard/config" "secret:acme")
                         Sample.registered)
  = Ret {| status := 200; body := Html (Layout None (Config (VStr "acme")));
           location := None; set_cookie := [] |}.
Proof.
  split; [| split].
  - apply (proj1 (session_guard Sample.rt Sample.lib (Sample.env unreachable_db)
                    (Sample.get_with_cookie "/dashboard/config" "forged:acme")
                    Sample.registered eq_refl sample_verify_empty)).
    right. left. exists "forged:acme", (Error "JwtTokenInvalid").
    split; reflexivity.
  - apply (proj1 (session_guard Sample.rt Sample.lib (Sample.env unreachable_db)
                    (Sample.get_with_cookie "/dashboard/config" "secret:")
                    Sample.registered eq_refl sample_verify_empty)).
    right. right. exists "secret:", [("customerId", VStr "")].
    repeat split.
  - rewrite (proj2 (proj1 (proj2 (session_guard Sample.rt Sample.lib
                             (Sample.env unreachable_db)
                             (Sample.get_with_cookie "/dashboard/config" "secret:acme")
                             Sample.registered eq_refl sample_verify_empty))
                      "secret:acme" [("customerId", VStr "acme")]
                      eq_refl eq_refl eq_refl)).
    reflexivity.
Defined.

(** ** Computations that leave the credential store alone *)

Create HintDb keeps.

Lemma keeps_ret {A} (a : A) : keeps_accounts (ret a).
Proof. intros w. reflexivity. Qed.

Lemma keeps_throw {A} (e : exn) : keeps_accounts (@throw A e).
Proof. intros w. reflexivity. Qed.

Lemma keeps_lift {A} (o : outcome A) : keeps_accounts (lift o).
Proof. intros w. reflexivity. Qed.

Lemma keeps_bind {A B} (m : M A) (k : A -> M B) :
  keeps_accounts m -> (forall a, keeps_accounts (k a)) -> keeps_accounts (bind m k).
Proof.
  intros Hm Hk w. unfold bind. specialize (Hm w).
  destruct (m w) as [[a | e] w']; simpl in *.
  - rewrite (Hk a w'). exact Hm.
  - exact Hm.
Qed.

Lemma keeps_try_catch {A} (m : M A) (h : exn -> M A) :
  keeps_accounts m -> (forall e, keeps_accounts (h e)) -> keeps_accounts (try_catch m h).
Proof.
  intros Hm Hh w. unfold try_catch. specialize (Hm w).
  destruct (m w) as [[a | e] w']; simpl in *.
  - exact Hm.
  - rewrite (Hh e w'). exact Hm.
Qed.

Lemma keeps_run_all (db : D1Database) (stmt : D1PreparedStatement) :
  keeps_accounts (run_all db stmt).
Proof. intros w. reflexivity. Qed.

#[local] Hint Resolve keeps_ret keeps_throw keeps_lift keeps_run_all : keeps.
#[local] Hint Extern 2 (keeps_accounts (bind _ _)) => apply keeps_bind; [| intros] : keeps.
#[local] Hint Extern 2 (keeps_accounts (try_catch _ _)) =>
  apply keeps_try_catch; [| intros] : keeps.
#[local] Hint Extern 3 (keeps_accounts (if ?b then _ else _)) => destruct b : keeps.
#[local] Hint Extern 3 (keeps_accounts (match ?o with Some _ => _ | None => _ end)) =>
  destruct o : keeps.
#[local] Hint Extern 3 (keeps_accounts (let '(_, _) := ?p in _)) => destruct p : keeps.

Lemma keeps_fetchData (env : Env) (query : string) (params : option (list value)) :
  keeps_accounts (fetchData env query params).
Proof. unfold fetchData. auto 10 with keeps. Qed.

Lemma keeps_onError (c : Context) (m : M Response) :
  keeps_accounts m -> keeps_accounts (onError c m).
Proof. intros Hm. unfold onError. auto with keeps. Qed.

Lemma keeps_getLocationData (rt : Runtime) (ip : value) :
  keeps_accounts (getLocationData rt ip).
Proof. unfold getLocationData. auto 10 with keeps. Qed.

Lemma keeps_promise_all {A} (ps : list (M A)) :
  Forall keeps_accounts ps -> keeps_accounts (promise_all ps).
Proof.
  induction 1 as [| p ps Hp _ IH]; simpl; auto 10 with keeps.
Qed.

Lemma keeps_geo (rt : Runtime) (data : list row) :
  keeps_accounts (promise_all (map (geo_entry rt) data)).
Proof.
  apply keeps_promise_all. apply Forall_map, Forall_forall. intros r _.
  unfold geo_entry. pose proof (keeps_getLocationData rt). auto with keeps.
Qed.

#[local] Hint Resolve keeps_fetchData keeps_onError keeps_geo : keeps.

(** ** Registration and login *)

Section Credentials.
Variable rt : Runtime.
Variable lib : Libs.

Lemma keeps_dashboard (r : Request) (c : Context) :
  keeps_accounts (Session.handler_of rt r c).
Proof.
  unfold Session.handler_of, Session.dashboard_routes.
  repeat match goal with
         | |- context [if ?b then _ else _] => destruct b
         end;
    unfold Session.overview, Session.geo_location, Session.domain_summary,
      Session.detailed, detailed_reports, Session.config, notFound,
      auth_rates, top_senders, compliance_trends, failure_analysis, table_route;
    auto 10 with keeps.
Qed.

Lemma keeps_session_auth (c : Context) (next : Handler) :
  (forall c', keeps_accounts (next c')) ->
  keeps_accounts (Session.auth rt lib c next).
Proof. intros Hnext. unfold Session.auth. auto 10 with keeps. Qed.

Lemma keeps_login (c : Context) : keeps_accounts (Session.login rt lib c).
Proof.
  unfold Session.login.
  apply keeps_bind; [intros w; reflexivity | intros accountPassword].
  auto 10 with keeps.
Qed.

Lemma keeps_logout (c : Context) : keeps_accounts (Session.logout c).
Proof. unfold Session.logout. auto with keeps. Qed.

Lemma kv_get_returned (kv : gmap string string) (key : option string)
      (o : option string) :
  kv_get kv key = Ret o -> refused_key (key_of key) = false /\ o = kv !! key_of key.
Proof.
  unfold kv_get. destruct (refused_key (key_of key)); [discriminate |].
  intros H. injection H as <-. split; reflexivity.
Qed.

(** The outcomes of [register]. *)
Lemma register_refused (c : Context) (w : world) (err : exn) :
  kv_get (accounts w) (assoc (form (req c)) "customerId") = Throw err ->
  Session.register rt lib c w = (Throw err, w).
Proof.
  intros H. unfold Session.register, Session.accounts_get. run_monad.
  rewrite H. reflexivity.
Qed.

Lemma register_conflict (c : Context) (w : world) (o : option string) :
  kv_get (accounts w) (assoc (form (req c)) "customerId") = Ret o ->
  truthy_str o = true ->
  Session.register rt lib c w = (Ret (c_text c "Customer ID already exist" 409), w).
Proof.
  intros Hget H. unfold Session.register, Session.accounts_get. run_monad.
  rewrite Hget, H. reflexivity.
Qed.

Lemma register_no_password (c : Context) (w : world) (o : option string) :
  kv_get (accounts w) (assoc (form (req c)) "customerId") = Ret o ->
  truthy_str o = false ->
  truthy_str (assoc (form (req c)) "password") = false ->
  Session.register rt lib c w = (Ret (c_text c "Invalid credentials" 401), w).
Proof.
  intros Hget H Hp. unfold Session.register, Session.accounts_get. run_monad.
  rewrite Hget, H, Hp. reflexivity.
Qed.

Lemma register_created (c : Context) (w : world) (o : option string) :
  kv_get (accounts w) (assoc (form (req c)) "customerId") = Ret o ->
  truthy_str o = false ->
  truthy_str (assoc (form (req c)) "password") = true ->
  Session.register rt lib c w =
    (Ret {| status := 302; body := NoBody; location := Some "/dashboard/config";
            set_cookie :=
              (pending_cookies c ++
               [session_cookie rt lib (env c) (assoc (form (req c)) "customerId")
                  {| httpOnly := true; maxAge := Some 86400; expires := None;
                     secure := false; sameSite := None; path := None |}])%list |},
     {| accounts :=
          <[key_of (assoc (form (req c)) "customerId") :=
              hashSync lib (key_of (assoc (form (req c)) "password")) 10]>
            (accounts w);
        executed := executed w |}).
Proof.
  intros Hget H Hp. destruct (kv_get_returned _ _ _ Hget) as [Hkey _].
  unfold Session.register, Session.accounts_get, Session.accounts_put.
  run_monad. rewrite Hget, H, Hp, Hkey. reflexivity.
Qed.

(** The outcomes of [login]. *)
Lemma login_raises (c : Context) (w : world) :
  accounts w !! key_of (assoc (form (req c)) "customerId") = None ->
  exists err, Session.login rt lib c w = (Throw err, w).
Proof.
  intros H. unfold Session.login, Session.accounts_get, Session.compareSync, kv_get.
  run_monad. destruct (refused_key _); [eauto |].
  rewrite H. destruct (of_option _); eauto.
Qed.

Lemma login_refused (c : Context) (w : world) (pw h : string) :
  kv_get (accounts w) (assoc (form (req c)) "customerId") = Ret (Some h) ->
  assoc (form (req c)) "password" = Some pw ->
  compare_hash lib pw h = false ->
  Session.login rt lib c w = (Ret (c_text c "Invalid credentials" 401), w).
Proof.
  intros H Hp Hcmp. unfold Session.login, Session.accounts_get, Session.compareSync.
  run_monad. rewrite H, Hp. simpl. rewrite Hcmp. reflexivity.
Qed.

Lemma login_accepted (c : Context) (w : world) (pw h : string) :
  kv_get (accounts w) (assoc (form (req c)) "customerId") = Ret (Some h) ->
  assoc (form (req c)) "password" = Some pw ->
  compare_hash lib pw h = true ->
  Session.login rt lib c w =
    (Ret {| status := 302; body := NoBody; location := Some "/dashboard/";
            set_cookie :=
              (pending_cookies c ++
               [session_cookie rt lib (env c) (assoc (form (req c)) "customerId")
                  {| httpOnly := true; maxAge := None; expires := None;
                     secure := false; sameSite := None; path := None |}])%list |},
     w).
Proof.
  intros H Hp Hcmp. unfold Session.login, Session.accounts_get, Session.compareSync.
  run_monad. rewrite H, Hp. simpl. rewrite Hcmp. reflexivity.
Qed.

(** Routing of the two form posts. *)
Lemma fetch_register (e : Env) (r : Request) (w : world) :
  req_method r = "POST" -> req_path r = "/register" ->
  Session.app_fetch rt lib e r w =
    onError (new_context e r) (Session.register rt lib (new_context e r)) w.
Proof.
  intros Hm Hp. unfold Session.app_fetch, Session.public_routes.
  rewrite Hm, Hp. reflexivity.
Qed.

Lemma fetch_login (e : Env) (r : Request) (w : world) :
  req_method r = "POST" -> req_path r = "/login" ->
  Session.app_fetch rt lib e r w =
    onError (new_context e r) (Session.login rt lib (new_context e r)) w.
Proof.
  intros Hm Hp. unfold Session.app_fetch, Session.public_routes.
  rewrite Hm, Hp. reflexivity.
Qed.
(** The four ways a registration can end. *)
Lemma register_cases (e : Env) (r : Request) (w : world) :
  req_method r = "POST" -> req_path r = "/register" ->
  let c := new_context e r in
  let key := key_of (assoc (form r) "customerId") in
  (refused_key key = true /\
   Session.app_fetch rt lib e r w = (Ret (c_html c ErrorPage 500), w)) \/
  (refused_key key = false /\ truthy_str (accounts w !! key) = true /\
   Session.app_fetch rt lib e r w =
     (Ret (c_text c "Customer ID already exist" 409), w)) \/
  (refused_key key = false /\ truthy_str (accounts w !! key) = false /\
   truthy_str (assoc (form r) "password") = false /\
   Session.app_fetch rt lib e r w = (Ret (c_text c "Invalid credentials" 401), w)) \/
  (refused_key key = false /\ truthy_str (accounts w !! key) = false /\
   truthy_str (assoc (form r) "password") = true /\
   Session.app_fetch rt lib e r w =
     (Ret {| status := 302; body := NoBody; location := Some "/dashboard/config";
             set_cookie :=
               [session_cookie rt lib e (assoc (form r) "customerId")
                  {| httpOnly := true; maxAge := Some 86400; expires := None;
                     secure := false; sameSite := None; path := None |}] |},
      {| accounts :=
           <[key := hashSync lib (key_of (assoc (form r) "password")) 10]> (accounts w);
         executed := executed w |})).
Proof.
  intros Hm Hp c key. rewrite (fetch_register e r w Hm Hp). fold c.
  destruct (kv_get (accounts w) (assoc (form (req c)) "customerId"))
    as [o | err] eqn:Hget.
  - destruct (kv_get_returned _ _ _ Hget) as [Hkey ->]. right.
    change (key_of (assoc (form (req c)) "customerId")) with key in *.
    destruct (truthy_str (accounts w !! key)) eqn:Hexists.
    + left. split; [exact Hkey |]. split; [reflexivity |].
      apply onError_ret. apply (register_conflict c w _ Hget). exact Hexists.
    + right. destruct (truthy_str (assoc (form r) "password")) eqn:Hpw.
      * right. split; [exact Hkey |]. split; [reflexivity |]. split; [reflexivity |].
        apply onError_ret. apply (register_created c w _ Hget); assumption.
      * left. split; [exact Hkey |]. split; [reflexivity |]. split; [reflexivity |].
        apply onError_ret. apply (register_no_password c w _ Hget); assumption.
  - left. split.
    + unfold kv_get in Hget.
      change (key_of (assoc (form (req c)) "customerId")) with key in Hget.
      destruct (refused_key key); [reflexivity | discriminate].
    + apply onError_throw with (e := err). apply register_refused. exact Hget.
Qed.
End Credentials.

(** C3, at the failing input: a login for a tenant without a credential
    record is not answered with 401.  The missing record reaches
    [compareSync] as [null] and the library raises (or the store refuses the
    identifier as a key and the lookup itself raises), and [onError] answers
    with the 500 page (no cookie is set). *)
Theorem login_unknown_tenant (rt : Runtime) (lib : Libs) (e : Env) (r : Request)
        (w : world) :
  req_method r = "POST" -> req_path r = "/login" ->
  accounts w !! key_of (assoc (form r) "customerId") = None ->
  Session.app_fetch rt lib e r w =
    (Ret {| status := 500; body := Html ErrorPage; location := None;
            set_cookie := [] |}, w).
Proof.
  intros Hm Hp Hkv. rewrite (fetch_login rt lib e r w Hm Hp).
  destruct (login_raises rt lib (new_context e r) w Hkv) as [err Hraise].
  apply onError_throw with (e := err). exact Hraise.
Qed.

Lemma login_unknown_tenant_witness :
  Session.app_fetch Sample.rt Sample.lib (Sample.env unreachable_db)
                    (Sample.post "/login" "ghost" "hunter2") Sample.registered
  = (Ret {| status := 500; body := Html ErrorPage; location := None;
            set_cookie := [] |}, Sample.registered).
Proof.
  apply (login_unknown_tenant Sample.rt Sample.lib (Sample.env unreachable_db)
           (Sample.post "/login" "ghost" "hunter2") Sample.registered);
    reflexivity.
Defined.

(** With a record on file, a password that fails the comparison gets 401 and
    no cookie, and one that passes gets the cookie and the redirect to the
    dashboard root. *)
Lemma login_known_tenant (rt : Runtime) (lib : Libs) (e : Env) (r : Request)
      (w : world) (pw h : string) :
  req_method r = "POST" -> req_path r = "/login" ->
  kv_get (accounts w) (assoc (form r) "customerId") = Ret (Some h) ->
  assoc (form r) "password" = Some pw ->
  Session.app_fetch rt lib e r w =
    if compare_hash lib pw h then
      (Ret {| status := 302; body := NoBody; location := Some "/dashboard/";
              set_cookie :=
                [session_cookie rt lib e (assoc (form r) "customerId")
                   {| httpOnly := true; maxAge := None; expires := None;
                      secure := false; sameSite := None; path := None |}] |}, w)
    else
      (Ret {| status := 401; body := Text "Invalid credentials"; location := None;
              set_cookie := [] |}, w).
Proof.
  intros Hm Hp Hkv Hpw. rewrite (fetch_login rt lib e r w Hm Hp).
  destruct (compare_hash lib pw h) eqn:Hcmp; apply onError_ret.
  - apply (login_accepted rt lib (new_context e r) w pw h); assumption.
  - apply (login_refused rt lib (new_context e r) w pw h); assumption.
Qed.

(** C9, at the failing input: the cookie set by a successful login carries
    the token whose [exp] claim lies 86400 seconds after the second of
    issuance and is http-only, but it has neither [maxAge] nor [expires]:
    unlike the cookie of [register] it is a browser-session cookie. *)
Theorem login_cookie_without_expiry (rt : Runtime) (lib : Libs) (e : Env)
        (r : Request) (w : world) (pw h : string) :
  req_method r = "POST" -> req_path r = "/login" ->
  kv_get (accounts w) (assoc (form r) "customerId") = Ret (Some h) ->
  assoc (form r) "password" = Some pw ->
  compare_hash lib pw h = true ->
  exists claims resp,
    fst (Session.app_fetch rt lib e r w) = Ret resp /\
    prop claims "exp" = of_Z (date_now rt / 1000 + 86400) /\
    set_cookie resp =
      [{| cookie_name := "jwt";
          cookie_value := sign lib claims (JWT_SECRET_KEY e);
          cookie_options :=
            {| httpOnly := true; maxAge := None; expires := None;
               secure := false; sameSite := None; path := None |} |}].
Proof.
  intros Hm Hp Hkv Hpw Hcmp.
  rewrite (login_known_tenant rt lib e r w pw h Hm Hp Hkv Hpw), Hcmp.
  eexists (Session.session_claims rt (assoc (form r) "customerId")), _.
  split; [reflexivity |]. split; reflexivity.
Qed.

Lemma login_cookie_without_expiry_witness :
  exists claims resp,
    fst (Session.app_fetch Sample.rt Sample.lib (Sample.env unreachable_db)
           (Sample.post "/login" "acme" "hunter2") Sample.registered) = Ret resp /\
    prop claims "exp" = of_Z 1700086400 /\
    set_cookie resp =
      [{| cookie_name := "jwt";
          cookie_value := sign Sample.lib claims "secret";
          cookie_options :=
            {| httpOnly := true; maxAge := None; expires := None;
               secure := false; sameSite := None; path := None |} |}].
Proof.
  apply (login_cookie_without_expiry Sample.rt Sample.lib
           (Sample.env unreachable_db) (Sample.post "/login" "acme" "hunter2")
           Sample.registered "hunter2" "$2a$hunter2"); reflexivity.
Defined.

(** The sibling path: the cookie of a successful registration has both the
    24-hour [exp] claim and [maxAge] 86400. *)
Lemma register_cookie_expiry (rt : Runtime) (lib : Libs) (e : Env) (r : Request)
      (w : world) :
  req_method r = "POST" -> req_path r = "/register" ->
  kv_get (accounts w) (assoc (form r) "customerId")
    = Ret (accounts w !! key_of (assoc (form r) "customerId")) ->
  truthy_str (accounts w !! key_of (assoc (form r) "customerId")) = false ->
  truthy_str (assoc (form r) "password") = true ->
  exists claims resp,
    fst (Session.app_fetch rt lib e r w) = Ret resp /\
    location resp = Some "/dashboard/config" /\
    prop claims "exp" = of_Z (date_now rt / 1000 + 86400) /\
    set_cookie resp =
      [{| cookie_name := "jwt";
          cookie_value := sign lib claims (JWT_SECRET_KEY e);
          cookie_options :=
            {| httpOnly := true; maxAge := Some 86400; expires := None;
               secure := false; sameSite := None; path := None |} |}].
Proof.
  intros Hm Hp Hget Hkv Hpw. rewrite (fetch_register rt lib e r w Hm Hp).
  erewrite onError_ret
    by (apply (register_created rt lib (new_context e r) w _ Hget); assumption).
  eexists (Session.session_claims rt (assoc (form r) "customerId")), _.
  split; [reflexivity |]. repeat split.
Qed.

(** ** Registering the same tenant twice *)

Section Registry.
Variable lib : Libs.
Variable e : Env.
Hypothesis hash_nonempty : forall s rounds, hashSync lib s rounds <> "".

(** No route removes or overwrites a record once it is on file. *)
Lemma record_kept (rt : Runtime) (r : Request) (w : world) (k h : string) :
  accounts w !! k = Some h -> h <> "" ->
  accounts (snd (Session.app_fetch rt lib e r w)) !! k = Some h.
Proof.
  intros Hk Hh.
  destruct ((req_method r =? "POST")%string && (req_path r =? "/register")%string)
    eqn:Hroute.
  - apply andb_prop in Hroute as [Hm Hp].
    apply String.eqb_eq in Hm. apply String.eqb_eq in Hp.
    destruct (register_cases rt lib e r w Hm Hp)
      as [(_ & Hrun) | [(_ & _ & Hrun) | [(_ & _ & _ & Hrun) | (_ & Hfree & _ & Hrun)]]];
      rewrite Hrun; simpl; try exact Hk.
    rewrite lookup_insert_ne; [exact Hk |].
    intros Heq. rewrite Heq, Hk in Hfree.
    rewrite (truthy_str_nonempty h Hh) in Hfree. discriminate.
  - unfold Session.app_fetch.
    destruct (Session.guarded (req_path r)).
    + unfold dispatch.
      rewrite (keeps_onError _ _
                 (keeps_session_auth rt lib _ _
                    (fun c' => keeps_onError c' _ (keeps_dashboard rt r c')))).
      exact Hk.
    + unfold Session.public_routes. rewrite Hroute.
      repeat match goal with
             | |- context [if ?b then _ else _] => destruct b
             end;
        rewrite keeps_onError; unfold notFound;
        auto using keeps_login, keeps_logout with keeps.
Qed.

Lemma record_kept_all (xs : list (Runtime * Request)) (w : world) (k h : string) :
  accounts w !! k = Some h -> h <> "" ->
  accounts (serve_all lib e xs w) !! k = Some h.
Proof.
  revert w. induction xs as [| [rt r] xs IH]; intros w Hk Hh; simpl.
  - exact Hk.
  - apply IH; [| exact Hh]. unfold serve. simpl. apply record_kept; assumption.
Qed.

(** A registration answered with the redirect has put the hash on file,
    under a key the store accepts. *)
Lemma register_redirect (rt : Runtime) (r : Request) (w : world) (resp : Response) :
  req_method r = "POST" -> req_path r = "/register" ->
  fst (Session.app_fetch rt lib e r w) = Ret resp -> status resp = 302 ->
  refused_key (key_of (assoc (form r) "customerId")) = false /\
  accounts (snd (Session.app_fetch rt lib e r w))
    !! key_of (assoc (form r) "customerId")
  = Some (hashSync lib (key_of (assoc (form r) "password")) 10).
Proof.
  intros Hm Hp Hresp Hstatus.
  destruct (register_cases rt lib e r w Hm Hp)
    as [(_ & Hrun) | [(_ & _ & Hrun) | [(_ & _ & _ & Hrun) | (Hkey & _ & _ & Hrun)]]];
    rewrite Hrun in Hresp |- *; simpl in Hresp; injection Hresp as <-;
    try discriminate.
  split; [exact Hkey | apply lookup_insert_eq].
Qed.

(** C4: when a registration has succeeded (it was answered with the
    redirect), a later registration for the same tenant identifier, after any
    requests in between, is answered with status 409 and leaves the world as
    it found it; the record on file is still the hash stored by the first
    request.  ([bcryptjs] never produces an empty hash.) *)
Theorem register_twice (rt1 rt2 : Runtime) (r1 r2 : Request) (w : world)
        (resp1 : Response) (between : list (Runtime * Request)) :
  req_method r1 = "POST" -> req_path r1 = "/register" ->
  req_method r2 = "POST" -> req_path r2 = "/register" ->
  assoc (form r2) "customerId" = assoc (form r1) "customerId" ->
  fst (Session.app_fetch rt1 lib e r1 w) = Ret resp1 -> status resp1 = 302 ->
  let w1 := snd (Session.app_fetch rt1 lib e r1 w) in
  let w2 := serve_all lib e between w1 in
  let k := key_of (assoc (form r1) "customerId") in
  let stored := hashSync lib (key_of (assoc (form r1) "password")) 10 in
  accounts w1 !! k = Some stored /\
  Session.app_fetch rt2 lib e r2 w2 =
    (Ret (c_text (new_context e r2) "Customer ID already exist" 409), w2) /\
  accounts (snd (Session.app_fetch rt2 lib e r2 w2)) !! k = Some stored.
Proof.
  intros Hm1 Hp1 Hm2 Hp2 Hsame Hresp Hstatus w1 w2 k stored.
  destruct (register_redirect rt1 r1 w resp1 Hm1 Hp1 Hresp Hstatus)
    as [Hkey Hstored].
  fold w1 k stored in Hstored. fold k in Hkey.
  assert (Hkept : accounts w2 !! k = Some stored)
    by (apply record_kept_all; [exact Hstored | apply hash_nonempty]).
  assert (Hsecond : Session.app_fetch rt2 lib e r2 w2 =
                      (Ret (c_text (new_context e r2) "Customer ID already exist" 409), w2)).
  { rewrite (fetch_register rt2 lib e r2 w2 Hm2 Hp2).
    apply onError_ret. apply register_conflict with (o := Some stored).
    - simpl. rewrite Hsame. unfold kv_get. fold k. rewrite Hkey, Hkept. reflexivity.
    - apply truthy_str_nonempty, hash_nonempty. }
  split; [exact Hstored |]. split; [exact Hsecond |].
  rewrite Hsecond. exact Hkept.
Qed.
End Registry.

Lemma sample_hash_nonempty (s : string) (rounds : Z) :
  hashSync Sample.lib s rounds <> "".
Proof. discriminate. Qed.

Lemma register_twice_witness :
  Session.app_fetch Sample.rt Sample.lib (Sample.env unreachable_db)
    (Sample.post "/register" "globex" "other")
    (serve_all Sample.lib (Sample.env unreachable_db)
       [(Sample.rt, Sample.post "/login" "globex" "s3cret");
        (Sample.rt, Sample.post "/register" "initech" "pw")]
       (snd (Session.app_fetch Sample.rt Sample.lib (Sample.env unreachable_db)
               (Sample.post "/register" "globex" "s3cret") Sample.registered)))
  = (Ret {| status := 409; body := Text "Customer ID already exist";
            location := None; set_cookie := [] |},
     World {[ "acme" := "$2a$hunter2"; "globex" := "$2a$s3cret";
              "initech" := "$2a$pw" ]} []).
Proof.
  rewrite (proj1 (proj2 (register_twice Sample.lib (Sample.env unreachable_db)
             sample_hash_nonempty Sample.rt Sample.rt
             (Sample.post "/register" "globex" "s3cret")
             (Sample.post "/register" "globex" "other") Sample.registered
             _ [(Sample.rt, Sample.post "/login" "globex" "s3cret");
                (Sample.rt, Sample.post "/register" "initech" "pw")]
             eq_refl eq_refl eq_refl eq_refl eq_refl eq_refl eq_refl))).
  vm_compute. reflexivity.
Defined.

(** ** The overview of a tenant without reports *)

Lemma filter_none {A} (f : A -> bool) (l : list A) :
  (forall x, In x l -> f x = false) -> List.filter f l = [].
Proof.
  induction l as [| x l IH]; intros H; simpl; [reflexivity |].
  rewrite (H x (or_introl eq_refl)). apply IH. intros y Hy. apply H. right. exact Hy.
Qed.

Lemma no_reports (table : list report) (customer : string) :
  (forall x, In x table -> customer_id x <> customer) ->
  List.filter (fun r => (customer_id r =? customer)%string) table = [].
Proof.
  intros H. apply filter_none. intros x Hx.
  destruct (String.eqb_spec (customer_id x) customer) as [Heq | _]; [| reflexivity].
  destruct (H x Hx Heq).
Qed.

(** What [fetchData] brings back from [reports_db] for the two overview
    statements. *)
Lemma fetch_overview (e : Env) (table : list report) (customer : string) (w : world) :
  DB e = reports_db table ->
  fst (fetchData e sql_overview (Some [VStr customer]) w)
  = Ret [overview_row success_rate
           (List.filter (fun r => (customer_id r =? customer)%string) table)].
Proof.
  intros Hdb. destruct (fetchData_spec e sql_overview (Some [VStr customer]) w)
    as (w' & Hrun & _).
  rewrite Hrun, Hdb. reflexivity.
Qed.

Lemma fetch_overview_coalesce (e : Env) (table : list report) (customer : string)
      (w : world) :
  DB e = reports_db table ->
  fst (fetchData e sql_overview_coalesce (Some [VStr customer]) w)
  = Ret [overview_row success_rate_coalesce
           (List.filter (fun r => (customer_id r =? customer)%string) table)].
Proof.
  intros Hdb.
  destruct (fetchData_spec e sql_overview_coalesce (Some [VStr customer]) w)
    as (w' & Hrun & _).
  rewrite Hrun, Hdb. reflexivity.
Qed.

Lemma token_overview_raises (c : Context) (table : list report)
      (customer : string) (w : world) :
  DB (env c) = reports_db table ->
  c_get c "customerId" = VStr customer ->
  (forall x, In x table -> customer_id x <> customer) ->
  fst (Token.overview c w) = Throw (TypeError "Cannot read properties of null").
Proof.
  intros Hdb Hc Hnone. unfold Token.overview. rewrite Hc. run_monad.
  pose proof (fetch_overview (env c) table customer w Hdb) as Hfetch.
  rewrite (no_reports table customer Hnone) in Hfetch.
  destruct (fetchData (env c) sql_overview (Some [VStr customer]) w) as [o w'].
  simpl in Hfetch. subst o. reflexivity.
Qed.

(** C5, at the failing input: in the token-parameter revisions the overview
    of an allowlisted tenant without a single report is the 500 page.
    The aggregate statement answers with one row whose [success_rate] is
    NULL; the fallback object is only used for an empty list, so
    [toFixed] is called on [null]. *)
Theorem overview_without_reports (rt : Runtime) (rev : revision)
        (table : list report) (e : Env) (r : Request) (w : world)
        (customer : string) :
  DB e = reports_db table ->
  req_method r = "GET" ->
  (rev = AtRoot /\ req_path r = "/") \/
  (rev = UnderDashboard /\ req_path r = "/dashboard") ->
  c_query (new_context e r) "customer" = Some customer -> customer <> "" ->
  truthy_str (DMARC_DOMAINS e !! customer) = true ->
  (forall x, In x table -> customer_id x <> customer) ->
  fst (Token.app_fetch rt rev e r w)
  = Ret {| status := 500; body := Html ErrorPage; location := None;
           set_cookie := [] |}.
Proof.
  intros Hdb Hm Hroute Hq Hid Hkv Hnone.
  assert (Hh : Token.guarded rev (req_path r) = true /\
               Token.handler_of rt rev r = Token.overview).
  { unfold Token.handler_of.
    destruct Hroute as [[-> Hp] | [-> Hp]]; rewrite Hp, Hm; split; reflexivity. }
  destruct Hh as [Hguard Hh].
  destruct (refused_key customer) eqn:Hkey;
    [rewrite (token_refuses rt rev e r w customer Hguard Hq Hid Hkey);
     reflexivity |].
  rewrite (token_accepts rt rev e r w customer Hguard Hq Hid Hkey Hkv), Hh.
  set (c' := c_set (new_context e r) "customerId" (VStr customer)).
  pose proof (token_overview_raises c' table customer w Hdb
                (c_get_set _ _ _) Hnone) as Hraise.
  unfold onError. run_monad.
  destruct (Token.overview c' w) as [o w']. simpl in Hraise. subst o. reflexivity.
Qed.

Lemma overview_without_reports_witness :
  fst (Token.app_fetch Sample.rt AtRoot
         (Sample.env (reports_db
            [{| customer_id := "globex"; source_ip := "192.0.2.1";
                header_from := "globex.example"; dkim_result := 1;
                spf_result := 1 |}]))
         (Sample.get "/" [("customer", "acme")]) Sample.empty)
  = Ret {| status := 500; body := Html ErrorPage; location := None;
           set_cookie := [] |}.
Proof.
  apply (overview_without_reports Sample.rt AtRoot
           [{| customer_id := "globex"; source_ip := "192.0.2.1";
               header_from := "globex.example"; dkim_result := 1;
               spf_result := 1 |}]
           _ _ Sample.empty "acme"); try reflexivity.
  - left. split; reflexivity.
  - discriminate.
  - intros x [<- | []]. discriminate.
Defined.

(** The session revision guards the quotient in the statement itself: there
    the overview of a tenant without a single report shows zero on the four
    cards. *)
Lemma overview_coalesce_without_reports (c : Context) (table : list report) (customer : string) (w : world) :
  DB (env c) = reports_db table ->
  c_get c "customerId" = VStr customer ->
  (forall x, In x table -> customer_id x <> customer) ->
  fst (Session.overview c w)
  = Ret (c_html c
           (Layout None
              (Stats [Lit "DMARC Analytics Overview for "; Interp (VStr customer)]
                 [("Total Reports", [LocaleString (Fin 0)]);
                  ("Unique IPs", [LocaleString (Fin 0)]);
                  ("Unique Domains", [LocaleString (Fin 0)]);
                  ("Success Rate", [ToFixed 1 (Fin 0); Lit "%"])]))
           200).
Proof.
  intros Hdb Hc Hnone. unfold Session.overview. rewrite Hc. run_monad.
  pose proof (fetch_overview_coalesce (env c) table customer w Hdb) as Hfetch.
  rewrite (no_reports table customer Hnone) in Hfetch.
  destruct (fetchData (env c) sql_overview_coalesce (Some [VStr customer]) w)
    as [o w'].
  simpl in Hfetch. subst o. reflexivity.
Qed.

(** The fallback object of the token revisions serves the case it was written
    for: a database call that raised. *)
Lemma overview_database_down (c : Context) (w : world) (err : exn) :
  d1_exec (DB (env c)) sql_overview (Some [c_get c "customerId"]) = Throw err ->
  fst (Token.overview c w)
  = Ret (c_html c
           (Layout (Some (c_get c "customerId"))
              (Stats [Lit "DMARC Analytics Overview"]
                 [("Total Reports", [LocaleString (Fin 0)]);
                  ("Unique IPs", [LocaleString (Fin 0)]);
                  ("Unique Domains", [LocaleString (Fin 0)]);
                  ("Success Rate", [ToFixed 1 (Fin 0); Lit "%"])]))
           200).
Proof.
  intros Hdown. unfold Token.overview. run_monad.
  destruct (fetchData_spec (env c) sql_overview (Some [c_get c "customerId"]) w)
    as (w' & Hrun & _).
  rewrite Hrun, Hdown. reflexivity.
Qed.

(** ** The pass rate of the domain summary *)

Lemma is_zero_true (q : Q) : q == 0 -> is_zero q = true.
Proof. intros H. unfold is_zero. apply Qeq_bool_iff. exact H. Qed.

Lemma pass_rate_zero_total (rt : Runtime) (r : row) (q : Q) :
  to_number (str_num rt) (prop r "total") = Fin q -> q == 0 ->
  pass_rate rt r = NaN \/ exists s, pass_rate rt r = Infinity s.
Proof.
  intros Htotal Hq. unfold pass_rate. rewrite Htotal.
  destruct (to_number (str_num rt) (prop r "passed")) as [| s | p]; simpl.
  - left. reflexivity.
  - right. eexists. reflexivity.
  - rewrite (is_zero_true q Hq).
    destruct (is_zero p); simpl; [left | right; eexists]; reflexivity.
Qed.

(** C6, as the code has it: the domain-summary handler divides [passed] by
    [total] without a zero guard, and the division does not raise.  Whatever
    rows [fetchData] brings back (it always brings back a list), the handler
    answers with the page (status 200); in a row whose [total] is zero the
    pass rate is [NaN] or an infinity, and that is what the cell shows. *)
Theorem domain_summary_zero_total (rt : Runtime) (c : Context) (w w' : world)
        (data : list row) :
  fetchData (env c) sql_domain_summary (Some [c_get c "customerId"]) w
    = (Ret data, w') ->
  Token.domain_summary rt c w =
    (Ret (c_html c (Layout (Some (c_get c "customerId"))
                           (domain_summary_table rt data)) 200), w') /\
  Session.domain_summary rt c w =
    (Ret (c_html c (Layout None (domain_summary_table rt data)) 200), w') /\
  forall r q, In r data ->
    to_number (str_num rt) (prop r "total") = Fin q -> q == 0 ->
    (pass_rate rt r = NaN \/ exists s, pass_rate rt r = Infinity s) /\
    In [[Interp (prop r "domain")]; [Interp (prop r "report_count")];
        [LocaleDate (prop r "first_seen")]; [LocaleDate (prop r "last_seen")];
        [Interp (prop r "unique_ips")]; [ToFixed 2 (pass_rate rt r); Lit "%"]]
       (match domain_summary_table rt data with
        | Table _ _ _ rows => rows
        | _ => []
        end).
Proof.
  intros Hrun. split; [| split].
  - unfold Token.domain_summary. run_monad. rewrite Hrun. reflexivity.
  - unfold Session.domain_summary. run_monad. rewrite Hrun. reflexivity.
  - intros r q Hin Htotal Hq. split.
    + apply (pass_rate_zero_total rt r q Htotal Hq).
    + simpl. apply in_map_iff. exists r. split; [reflexivity | exact Hin].
Qed.

Lemma domain_summary_zero_total_witness :
  pass_rate Sample.rt Sample.zero_total_row = NaN \/
  exists s, pass_rate Sample.rt Sample.zero_total_row = Infinity s.
Proof.
  apply (proj2 (proj2 (domain_summary_zero_total Sample.rt
           (c_set (new_context
                     (Sample.env (checked_db (fun _ => [Sample.zero_total_row])))
                     (Sample.get "/domain-summary" [("customer", "acme")]))
                  "customerId" (VStr "acme"))
           Sample.empty _ [Sample.zero_total_row] eq_refl))
         Sample.zero_total_row 0%Q).
  - left. reflexivity.
  - reflexivity.
  - reflexivity.
Defined.

(** C6 as stated fails: with a row whose [total] is zero the handler does not
    fail, it answers with status 200 and the cell reads [NaN%]. *)
Lemma domain_summary_zero_total_page :
  to_number (str_num Sample.rt) (prop Sample.zero_total_row "total") = Fin 0 /\
  fst (Token.app_fetch Sample.rt AtRoot
         (Sample.env (checked_db (fun _ => [Sample.zero_total_row])))
         (Sample.get "/domain-summary" [("customer", "acme")]) Sample.empty)
  = Ret {| status := 200;
           body :=
             Html (Layout (Some (VStr "acme"))
                     (Table "Domain Summary" None
                        ["Domain"; "Report Count"; "First Seen"; "Last Seen";
                         "Unique IPs"; "Pass Rate"]
                        [[[Interp (VStr "example.org")]; [Interp (of_Z 0)];
                          [LocaleDate VNull]; [LocaleDate VNull];
                          [Interp (of_Z 0)]; [ToFixed 2 NaN; Lit "%"]]]));
           location := None; set_cookie := [] |}.
Proof. split; reflexivity. Qed.

(** ** The geolocation lookups *)

Lemma getLocationData_resolves (rt : Runtime) (ip : value) (w : world) :
  getLocationData rt ip w = (Ret (location_of (fetch rt ip)), w).
Proof.
  unfold getLocationData, location_of. run_monad.
  destruct (fetch rt ip) as [response | e]; [| reflexivity].
  destruct (ok response); simpl; [| reflexivity].
  destruct (json response); reflexivity.
Qed.

Lemma location_of_failed (o : outcome FetchResponse) :
  lookup_failed o -> location_of o = VStr "Unknown".
Proof.
  destruct o as [response | e]; simpl; [| reflexivity].
  intros ->. reflexivity.
Qed.

Lemma geo_entries_resolve (rt : Runtime) (data : list row) (w : world) :
  promise_all (map (geo_entry rt) data) w = (Ret (map (located rt) data), w).
Proof.
  induction data as [| r data IH]; simpl; [reflexivity |].
  unfold bind at 1. unfold geo_entry at 1. unfold bind at 1.
  rewrite getLocationData_resolves. unfold ret at 1.
  unfold bind. rewrite IH. reflexivity.
Qed.

(** C8: the batch of lookups always resolves, with one entry per row; the
    entry of an address whose lookup failed (rejected [fetch], non-success
    status) has the location ["Unknown"]; and the entry of an address is the
    same under any other behaviour of the network that answers this address
    alike, so a failure elsewhere in the batch does not change it. *)
Theorem geo_lookup_failures (rt : Runtime) (data : list row) (w : world) :
  exists geoData,
    promise_all (map (geo_entry rt) data) w = (Ret geoData, w) /\
    length geoData = length data /\
    (forall i r, nth_error data i = Some r ->
       lookup_failed (fetch rt (prop r "source_ip")) ->
       exists g, nth_error geoData i = Some g /\
                 prop g "ip" = prop r "source_ip" /\
                 prop g "location" = VStr "Unknown") /\
    (forall rt' i r, nth_error data i = Some r ->
       fetch rt' (prop r "source_ip") = fetch rt (prop r "source_ip") ->
       exists geoData',
         promise_all (map (geo_entry rt') data) w = (Ret geoData', w) /\
         nth_error geoData' i = nth_error geoData i).
Proof.
  exists (map (located rt) data). split; [apply geo_entries_resolve |].
  split; [apply length_map |]. split.
  - intros i r Hr Hfail. exists (located rt r). split.
    + rewrite nth_error_map, Hr. reflexivity.
    + split; [reflexivity |]. simpl. apply location_of_failed, Hfail.
  - intros rt' i r Hr Hsame. exists (map (located rt') data).
    split; [apply geo_entries_resolve |].
    rewrite !nth_error_map, Hr. simpl. unfold located. rewrite Hsame. reflexivity.
Qed.

Lemma geo_lookup_failures_witness :
  exists g,
    nth_error
      (map (located Sample.rt)
           [[("source_ip", VStr "192.0.2.1"); ("total", of_Z 3)];
            [("source_ip", VStr ""); ("total", of_Z 1)]]) 1 = Some g /\
    prop g "ip" = VStr "" /\ prop g "location" = VStr "Unknown".
Proof.
  destruct (geo_lookup_failures Sample.rt
              [[("source_ip", VStr "192.0.2.1"); ("total", of_Z 3)];
               [("source_ip", VStr ""); ("total", of_Z 1)]] Sample.empty)
    as (geoData & Hrun & _ & Hfail & _).
  injection Hrun as <-.
  apply (Hfail 1%nat [("source_ip", VStr ""); ("total", of_Z 1)]).
  - reflexivity.
  - exact I.
Defined.

(** The two handlers that use the lookups answer with the page. *)
Lemma geo_handlers_answer (rt : Runtime) (c : Context) (w : world) :
  exists data w',
    Token.geo_distribution rt UnderDashboard c w =
      (Ret (c_html c (Layout (Some (c_get c "customerId"))
                             (geo_table (map (located rt) data))) 200), w') /\
    Session.geo_location rt c w =
      (Ret (c_html c (Layout None (geo_table (map (located rt) data))) 200), w').
Proof.
  destruct (fetchData_spec (env c) sql_geo (Some [c_get c "customerId"]) w)
    as (w' & Hrun & _).
  eexists _, w'. split.
  - unfold Token.geo_distribution. unfold bind at 1. rewrite Hrun.
    unfold bind. rewrite geo_entries_resolve. reflexivity.
  - unfold Session.geo_location. unfold bind at 1. rewrite Hrun.
    unfold bind. rewrite geo_entries_resolve. reflexivity.
Qed.

(** ** The filters of the detailed reports *)

Lemma truthy_or_else (o : option string) :
  truthy (VStr (or_else o "")) = truthy_str o.
Proof.
  unfold truthy_str. destruct o as [s |]; simpl; [| reflexivity].
  destruct (String.eqb_spec s "") as [-> | Hs]; simpl; [reflexivity |].
  destruct (String.eqb_spec s ""); [contradiction | reflexivity].
Qed.

Lemma detailed_query_mismatch (rt : Runtime) (rev : revision) (customerId : value)
      (startDate endDate domain : string) :
  (truthy (VStr endDate) = true /\ truthy (VStr startDate) = false) \/
  (truthy (VStr domain) = true /\
   (truthy (VStr startDate) = false \/ truthy (VStr endDate) = false)) ->
  let query := fst (detailed_query rt rev customerId startDate endDate domain) in
  let params := snd (detailed_query rt rev customerId startDate endDate domain) in
  (parameter_count query = 3%nat \/ parameter_count query = 4%nat) /\
  (length params < parameter_count query)%nat.
Proof.
  intros H. unfold detailed_query.
  destruct (truthy (VStr startDate)), (truthy (VStr endDate)),
    (truthy (VStr domain)), rev;
    try (exfalso; clear -H; intuition discriminate);
    vm_compute; split; auto; lia.
Qed.

(** When the supplied filters form a prefix of (start, end, domain), every
    parameter of the statement has its value. *)
Lemma detailed_query_well_bound (rt : Runtime) (rev : revision) (customerId : value)
      (startDate endDate domain : string) :
  (truthy (VStr endDate) = true -> truthy (VStr startDate) = true) ->
  (truthy (VStr domain) = true -> truthy (VStr endDate) = true) ->
  length (snd (detailed_query rt rev customerId startDate endDate domain))
  = parameter_count (fst (detailed_query rt rev customerId startDate endDate domain)).
Proof.
  intros He Hd. unfold detailed_query.
  destruct (truthy (VStr startDate)), (truthy (VStr endDate)),
    (truthy (VStr domain)), rev;
    try (exfalso; clear -He Hd; intuition discriminate);
    reflexivity.
Qed.

(** C10: when a later filter is supplied without all the earlier ones ([end]
    without [start], or [domain] without both dates), the statement built by
    the detailed-reports handler refers to parameter 3 or 4 while fewer
    values are bound.  D1 refuses to run a statement that is given fewer
    values than it has parameters; the refusal is caught by [fetchData], and
    the page comes back with a table of zero rows (status 200). *)
Theorem detailed_filters_mismatch (rt : Runtime) (rev : revision)
        (mark : value -> string) (disposition : value -> piece)
        (with_customer : bool) (c : Context) (w : world) :
  (supplied c "end" = true /\ supplied c "start" = false) \/
  (supplied c "domain" = true /\
   (supplied c "start" = false \/ supplied c "end" = false)) ->
  (forall q ps, (length ps < parameter_count q)%nat ->
                exists err, d1_exec (DB (env c)) q (Some ps) = Throw err) ->
  let customerId := c_get c "customerId" in
  let startDate := or_else (c_query c "start") "" in
  let endDate := or_else (c_query c "end") "" in
  let domain := or_else (c_query c "domain") "" in
  let query := fst (detailed_query rt rev customerId startDate endDate domain) in
  let params := snd (detailed_query rt rev customerId startDate endDate domain) in
  (parameter_count query = 3%nat \/ parameter_count query = 4%nat) /\
  (length params < parameter_count query)%nat /\
  fst (detailed_reports rt rev mark disposition with_customer c w) =
    Ret (c_html c
           (Layout (if with_customer then Some customerId else None)
              (Table "Detailed Reports"
                 (Some {| hidden_customer := customerId; start_value := startDate;
                          end_value := endDate; domain_value := domain |})
                 ["Date"; "Domain"; "IP"; "DKIM"; "SPF"; "Disposition";
                  "Override"; "Error"]
                 []))
           200).
Proof.
  intros Hfilters Hd1 customerId startDate endDate domain query params.
  assert (Hmis : (parameter_count query = 3%nat \/ parameter_count query = 4%nat) /\
                 (length params < parameter_count query)%nat).
  { apply detailed_query_mismatch. unfold startDate, endDate, domain.
    rewrite !truthy_or_else. exact Hfilters. }
  destruct Hmis as [Hcount Hless]. split; [exact Hcount |]. split; [exact Hless |].
  unfold detailed_reports. fold customerId startDate endDate domain.
  destruct (detailed_query rt rev customerId startDate endDate domain)
    as [q ps] eqn:Hq.
  simpl in query, params. subst query params.
  destruct (Hd1 q ps Hless) as [err Herr].
  destruct (fetchData_spec (env c) q (Some ps) w) as (w' & Hrun & _).
  unfold bind. rewrite Hrun, Herr. reflexivity.
Qed.

Lemma checked_db_refuses (answer : D1PreparedStatement -> list row)
      (q : string) (ps : list value) :
  (length ps < parameter_count q)%nat ->
  exists err, d1_exec (checked_db answer) q (Some ps) = Throw err.
Proof.
  intros Hless. unfold d1_exec. simpl.
  destruct (Nat.eqb_spec (length ps) (parameter_count q)) as [Heq | _].
  - lia.
  - eexists. reflexivity.
Qed.

Lemma detailed_filters_mismatch_witness :
  parameter_count
    (fst (detailed_query Sample.rt UnderDashboard (VStr "acme") ""
                         "2024-01-31" "")) = 3%nat /\
  length (snd (detailed_query Sample.rt UnderDashboard (VStr "acme") ""
                              "2024-01-31" "")) = 2%nat /\
  exists resp,
    fst (Token.detailed Sample.rt UnderDashboard
           (c_set (new_context
                     (Sample.env (checked_db (fun _ => [Sample.zero_total_row])))
                     (Sample.get "/dashboard/detailed-reports"
                        [("customer", "acme"); ("start", "");
                         ("end", "2024-01-31"); ("domain", "")]))
                  "customerId" (VStr "acme"))
           Sample.empty) = Ret resp /\
    status resp = 200.
Proof.
  split; [reflexivity |]. split; [reflexivity |].
  eexists. split.
  - apply (proj2 (proj2 (detailed_filters_mismatch Sample.rt UnderDashboard
             Token.mark Interp true
             (c_set (new_context
                       (Sample.env (checked_db (fun _ => [Sample.zero_total_row])))
                       (Sample.get "/dashboard/detailed-reports"
                          [("customer", "acme"); ("start", "");
                           ("end", "2024-01-31"); ("domain", "")]))
                    "customerId" (VStr "acme"))
             Sample.empty
             (or_introl (conj eq_refl eq_refl))
             (checked_db_refuses (fun _ => [Sample.zero_total_row]))))).
  - reflexivity.
Defined.

(** * Further properties of the worker *)

(** ** safeStringify *)

Lemma chars_append (a b : string) :
  list_ascii_of_string (a +:+ b)
  = (list_ascii_of_string a ++ list_ascii_of_string b)%list.
Proof. induction a as [| x a IH]; simpl; [reflexivity | rewrite IH; reflexivity]. Qed.

Lemma replace_all_chars (c : ascii) (by_ s : string) (a : ascii) :
  In a (list_ascii_of_string (replace_all c by_ s)) ->
  In a (list_ascii_of_string by_) \/ (a <> c /\ In a (list_ascii_of_string s)).
Proof.
  induction s as [| x s IH]; simpl; [intros [] |].
  destruct (Ascii.eqb_spec x c) as [-> | Hx].
  - rewrite chars_append. intros H. apply in_app_or in H. destruct H as [H | H].
    + left. exact H.
    + destruct (IH H) as [H' | [Hne H']]; [left | right]; auto.
  - simpl. intros [<- | H].
    + right. split; [exact Hx | left; reflexivity].
    + destruct (IH H) as [H' | [Hne H']]; [left | right]; auto.
Qed.

Lemma replace_all_absent (c : ascii) (by_ s : string) :
  ~ In c (list_ascii_of_string s) -> replace_all c by_ s = s.
Proof.
  induction s as [| x s IH]; simpl; [reflexivity |]. intros H.
  destruct (Ascii.eqb_spec x c) as [-> | Hx].
  - destruct H. left. reflexivity.
  - rewrite IH; [reflexivity |]. intros Hin. apply H. right. exact Hin.
Qed.

(** X1: the text produced by [safeStringify] contains none of the characters
    [<], [>] and [&], whatever [JSON.stringify] produced; a text that has
    none of them comes back unchanged. *)
Theorem safeStringify_escapes {A} (stringify : A -> option string) (obj : A)
        (text : string) :
  stringify obj = Some text ->
  exists out,
    safeStringify stringify obj = Ret out /\
    (forall a, In a (list_ascii_of_string out) ->
               a <> "<"%char /\ a <> ">"%char /\ a <> "&"%char) /\
    ((forall a, In a (list_ascii_of_string text) ->
                a <> "<"%char /\ a <> ">"%char /\ a <> "&"%char) ->
     out = text).
Proof.
  intros Hs. unfold safeStringify. rewrite Hs. eexists. split; [reflexivity |].
  split.
  - intros a Ha.
    apply replace_all_chars in Ha. destruct Ha as [Ha | [Hamp Ha]].
    { simpl in Ha. repeat split; intros ->; intuition discriminate. }
    apply replace_all_chars in Ha. destruct Ha as [Ha | [Hgt Ha]].
    { simpl in Ha. repeat split; intros ->; intuition discriminate. }
    apply replace_all_chars in Ha. destruct Ha as [Ha | [Hlt Ha]].
    { simpl in Ha. repeat split; intros ->; intuition discriminate. }
    auto.
  - intros Hclean.
    rewrite (replace_all_absent "<" _ text)
      by (intros Hin; destruct (Hclean _ Hin) as (H & _ & _); apply H; reflexivity).
    rewrite (replace_all_absent ">" _ text)
      by (intros Hin; destruct (Hclean _ Hin) as (_ & H & _); apply H; reflexivity).
    apply replace_all_absent.
    intros Hin. destruct (Hclean _ Hin) as (_ & _ & H). apply H. reflexivity.
Qed.

Lemma safeStringify_escapes_witness :
  exists out,
    safeStringify (fun s : string => Some s) "<b>Tom & Jerry</b>" = Ret out /\
    (forall a, In a (list_ascii_of_string out) ->
               a <> "<"%char /\ a <> ">"%char /\ a <> "&"%char) /\
    ((forall a, In a (list_ascii_of_string "<b>Tom & Jerry</b>") ->
                a <> "<"%char /\ a <> ">"%char /\ a <> "&"%char) ->
     out = "<b>Tom & Jerry</b>").
Proof.
  apply (safeStringify_escapes (fun s : string => Some s)
           "<b>Tom & Jerry</b>" "<b>Tom & Jerry</b>").
  reflexivity.
Defined.

(** ** The statement of the detailed reports *)

(** X2: the detailed-reports statement binds the tenant first and then one
    value per supplied filter; it has as many values as parameters exactly
    when the supplied filters are a prefix of (start, end, domain). *)
Theorem detailed_query_binding (rt : Runtime) (rev : revision) (customerId : value)
        (startDate endDate domain : string) :
  let query := fst (detailed_query rt rev customerId startDate endDate domain) in
  let params := snd (detailed_query rt rev customerId startDate endDate domain) in
  nth_error params 0 = Some customerId /\
  length params
  = S (count_true [truthy (VStr startDate); truthy (VStr endDate);
                   truthy (VStr domain)]) /\
  (length params = parameter_count query <->
   (truthy (VStr endDate) = true -> truthy (VStr startDate) = true) /\
   (truthy (VStr domain) = true -> truthy (VStr endDate) = true)).
Proof.
  unfold detailed_query.
  destruct (truthy (VStr startDate)), (truthy (VStr endDate)),
    (truthy (VStr domain)), rev;
    vm_compute; (split; [reflexivity |]); (split; [reflexivity |]);
    split; intros H; try discriminate; try reflexivity;
    try (split; intros; congruence);
    try (exfalso; destruct H as [H1 H2]; first [specialize (H1 eq_refl) | specialize (H2 eq_refl)]; discriminate).
Qed.

Lemma detailed_query_binding_witness :
  length (snd (detailed_query Sample.rt AtRoot (VStr "acme")
                              "2024-01-01" "2024-01-31" ""))
  = parameter_count (fst (detailed_query Sample.rt AtRoot (VStr "acme")
                                         "2024-01-01" "2024-01-31" "")).
Proof.
  apply (proj2 (proj2 (detailed_query_binding Sample.rt AtRoot (VStr "acme")
                         "2024-01-01" "2024-01-31" ""))).
  split; [reflexivity | discriminate].
Defined.

(** ** How the revisions mark a DKIM or SPF result *)

Lemma is_number_truthy (v : value) : Session.is_number v 1 = true -> truthy v = true.
Proof.
  destruct v as [| | [| s | q] | s]; simpl; try discriminate.
  unfold is_zero. intros H. apply Qeq_bool_iff in H.
  destruct (Qeq_bool q 0) eqn:Hz; [| reflexivity].
  apply Qeq_bool_iff in Hz. rewrite Hz in H. discriminate.
Qed.

(** X3: the session revision draws the check mark only for the number 1
    (pass); the token revisions draw it for every truthy result.  The two
    agree on a result exactly when it is the number 1 or falsy, so any other
    value, such as the fail code 2, is a check mark in the token revisions
    and a cross in the session revision. *)
Theorem mark_revisions (v : value) :
  (Token.mark v = Session.mark v <-> truthy v = Session.is_number v 1) /\
  (Token.mark v <> Session.mark v ->
   Token.mark v = "✓" /\ Session.mark v = "✗").
Proof.
  unfold Token.mark, Session.mark.
  pose proof (is_number_truthy v) as Himp.
  destruct (truthy v), (Session.is_number v 1); split;
    try (split; intros; congruence);
    try (intros H; exfalso; apply H; reflexivity);
    try (specialize (Himp eq_refl); discriminate);
    try (split; [discriminate | discriminate]);
    try (intros _; split; reflexivity).
Qed.

Lemma mark_revisions_witness :
  Token.mark (of_Z 2) = "✓" /\ Session.mark (of_Z 2) = "✗".
Proof.
  apply (proj2 (mark_revisions (of_Z 2))). discriminate.
Defined.

(** ** Login, registration and logout as a whole *)







(** X6: registration and login round-trip.  After a registration answered with
    the redirect and any requests in between, a login with the same
    identifier and password is answered with the redirect to the dashboard
    root and the session cookie.  ([bcryptjs]: a hash is never empty and
    [compareSync] accepts a password against its own hash.) *)
Theorem register_then_login (lib : Libs) (e : Env) (rt1 rt2 : Runtime)
        (r1 r2 : Request) (w : world) (resp1 : Response)
        (between : list (Runtime * Request)) :
  (forall s rounds, hashSync lib s rounds <> "") ->
  (forall s rounds, compare_hash lib s (hashSync lib s rounds) = true) ->
  req_method r1 = "POST" -> req_path r1 = "/register" ->
  req_method r2 = "POST" -> req_path r2 = "/login" ->
  assoc (form r2) "customerId" = assoc (form r1) "customerId" ->
  assoc (form r2) "password" = assoc (form r1) "password" ->
  fst (Session.app_fetch rt1 lib e r1 w) = Ret resp1 -> status resp1 = 302 ->
  let w2 := serve_all lib e between (snd (Session.app_fetch rt1 lib e r1 w)) in
  Session.app_fetch rt2 lib e r2 w2 =
    (Ret {| status := 302; body := NoBody; location := Some "/dashboard/";
            set_cookie :=
              [session_cookie rt2 lib e (assoc (form r2) "customerId")
                 {| httpOnly := true; maxAge := None; expires := None;
                    secure := false; sameSite := None; path := None |}] |}, w2).
Proof.
  intros Hhash Hcmp Hm1 Hp1 Hm2 Hp2 Hid Hpw Hresp Hstatus w2.
  assert (Hstored :
            accounts (snd (Session.app_fetch rt1 lib e r1 w))
              !! key_of (assoc (form r1) "customerId")
            = Some (hashSync lib (key_of (assoc (form r1) "password")) 10)
            /\ truthy_str (assoc (form r1) "password") = true
            /\ refused_key (key_of (assoc (form r1) "customerId")) = false).
  { destruct (register_cases rt1 lib e r1 w Hm1 Hp1)
      as [(_ & Hrun) | [(_ & _ & Hrun) | [(_ & _ & _ & Hrun)
                                         | (Hkey & _ & Htruthy & Hrun)]]];
      rewrite Hrun in Hresp |- *; simpl in Hresp; injection Hresp as <-;
      try discriminate.
    split; [apply lookup_insert_eq | split; [exact Htruthy | exact Hkey]]. }
  destruct Hstored as (Hstored & Htruthy & Hkey).
  destruct (assoc (form r1) "password") as [pw |] eqn:Hpw1; [| discriminate].
  simpl in Hstored.
  pose proof (record_kept_all lib e between _ _ _ Hstored (Hhash pw 10))
    as Hkept. fold w2 in Hkept.
  rewrite (login_known_tenant rt2 lib e r2 w2 pw (hashSync lib pw 10) Hm2 Hp2).
  - rewrite Hcmp. reflexivity.
  - unfold kv_get. rewrite Hid, Hkey, Hkept. reflexivity.
  - exact Hpw.
Qed.

Lemma sample_compare_own_hash (s : string) (rounds : Z) :
  compare_hash Sample.lib s (hashSync Sample.lib s rounds) = true.
Proof. simpl. apply String.eqb_refl. Qed.

Lemma register_then_login_witness :
  fst (Session.app_fetch Sample.rt Sample.lib (Sample.env unreachable_db)
         (Sample.post "/login" "globex" "s3cret")
         (serve_all Sample.lib (Sample.env unreachable_db)
            [(Sample.rt, Sample.post "/register" "globex" "other")]
            (snd (Session.app_fetch Sample.rt Sample.lib (Sample.env unreachable_db)
                    (Sample.post "/register" "globex" "s3cret") Sample.empty))))
  = Ret {| status := 302; body := NoBody; location := Some "/dashboard/";
           set_cookie :=
             [{| cookie_name := "jwt"; cookie_value := "secret:globex";
                 cookie_options :=
                   {| httpOnly := true; maxAge := None; expires := None;
                      secure := false; sameSite := None; path := None |} |}] |}.
Proof.
  rewrite (register_then_login Sample.lib (Sample.env unreachable_db)
             Sample.rt Sample.rt
             (Sample.post "/register" "globex" "s3cret")
             (Sample.post "/login" "globex" "s3cret") Sample.empty _
             [(Sample.rt, Sample.post "/register" "globex" "other")]
             sample_hash_nonempty sample_compare_own_hash
             eq_refl eq_refl eq_refl eq_refl eq_refl eq_refl eq_refl eq_refl).
  reflexivity.
Defined.

(** X7: the cookie of a successful registration opens the dashboard.  When a
    later request under [/dashboard] sends that cookie back and [verify]
    accepts the token at that time, returning the tenant it was signed for,
    the guard stores that tenant in the context and the route handler runs.
    (The token is not the empty string.) *)
Theorem registered_token_accepted (lib : Libs) (e : Env) (rt1 rt2 : Runtime)
        (r1 r2 : Request) (w w2 : world) (resp1 : Response) (id : string)
        (ck : Cookie) (p : object) :
  req_method r1 = "POST" -> req_path r1 = "/register" ->
  assoc (form r1) "customerId" = Some id -> id <> "" ->
  fst (Session.app_fetch rt1 lib e r1 w) = Ret resp1 -> status resp1 = 302 ->
  In ck (set_cookie resp1) ->
  Session.guarded (req_path r2) = true ->
  cookie_header r2 = [(cookie_name ck, cookie_value ck)] ->
  cookie_value ck <> "" ->
  verified rt2 lib e (cookie_value ck) = Ret p ->
  prop p "customerId" = VStr id ->
  cookie_value ck = sign lib (Session.session_claims rt1 (Some id)) (JWT_SECRET_KEY e) /\
  Session.app_fetch rt2 lib e r2 w2 =
    onError (c_set (new_context e r2) "customerId" (VStr id))
            (Session.handler_of rt2 r2
               (c_set (new_context e r2) "customerId" (VStr id))) w2.
Proof.
  intros Hm1 Hp1 Hid Hne Hresp Hstatus Hck Hguard Hheader Htoken Hverify Hclaim.
  assert (Hcookie : ck = session_cookie rt1 lib e (Some id)
                           {| httpOnly := true; maxAge := Some 86400;
                              expires := None; secure := false;
                              sameSite := None; path := None |}).
  { destruct (register_cases rt1 lib e r1 w Hm1 Hp1)
      as [(_ & Hrun) | [(_ & _ & Hrun) | [(_ & _ & _ & Hrun)
                                         | (_ & _ & _ & Hrun)]]];
      rewrite Hrun in Hresp; simpl in Hresp; injection Hresp as <-;
      try discriminate.
    simpl in Hck. destruct Hck as [<- | []]. rewrite Hid. reflexivity. }
  split; [rewrite Hcookie; reflexivity |].
  assert (Hget : getCookie (new_context e r2) "jwt" = Some (cookie_value ck)).
  { unfold getCookie. simpl. rewrite Hheader, Hcookie. reflexivity. }
  unfold Session.app_fetch. rewrite Hguard. unfold dispatch.
  unfold onError at 1. run_monad.
  rewrite (session_auth_accepted rt2 lib (new_context e r2) _ w2
             (cookie_value ck) p Hget Htoken Hverify)
    by (rewrite Hclaim; apply (truthy_str_nonempty id Hne)).
  rewrite Hclaim. run_monad.
  destruct (onError_returns (c_set (new_context e r2) "customerId" (VStr id))
              (Session.handler_of rt2 r2
                 (c_set (new_context e r2) "customerId" (VStr id))) w2)
    as (resp & w' & Hrun).
  rewrite Hrun. reflexivity.
Qed.

Lemma registered_token_accepted_witness :
  fst (Session.app_fetch Sample.rt Sample.lib (Sample.env unreachable_db)
         (Sample.get_with_cookie "/dashboard/config" "secret:globex")
         Sample.empty)
  = Ret {| status := 200; body := Html (Layout None (Config (VStr "globex")));
           location := None; set_cookie := [] |}.
Proof.
  rewrite (proj2 (registered_token_accepted Sample.lib (Sample.env unreachable_db)
             Sample.rt Sample.rt
             (Sample.post "/register" "globex" "s3cret")
             (Sample.get_with_cookie "/dashboard/config" "secret:globex")
             Sample.empty Sample.empty _ "globex"
             {| cookie_name := "jwt"; cookie_value := "secret:globex";
                cookie_options :=
                  {| httpOnly := true; maxAge := Some 86400; expires := None;
                     secure := false; sameSite := None; path := None |} |}
             [("customerId", VStr "globex")]
             eq_refl eq_refl eq_refl ltac:(discriminate) eq_refl eq_refl
             (or_introl eq_refl) eq_refl eq_refl ltac:(discriminate)
             eq_refl eq_refl)).
  reflexivity.
Defined.

(** X8: logout invalidates the session cookie whatever the request carries.
    [GET /logout] leaves the world alone and redirects to [/login] with a
    [jwt] cookie that is empty and expired at the epoch; a request under
    [/dashboard] that sends this cookie is redirected to [/logout] without
    running a handler, whatever [verify] would say. *)
Theorem logout_invalidates (rt : Runtime) (lib : Libs) (e : Env) (r : Request)
        (w : world) :
  req_method r = "GET" -> req_path r = "/logout" ->
  exists ck,
    Session.app_fetch rt lib e r w =
      (Ret {| status := 302; body := NoBody; location := Some "/login";
              set_cookie := [ck] |}, w) /\
    cookie_name ck = "jwt" /\ cookie_value ck = "" /\
    expires (cookie_options ck) = Some 0 /\
    httpOnly (cookie_options ck) = true /\
    forall rt2 lib2 r2 w2,
      Session.guarded (req_path r2) = true ->
      cookie_header r2 = [(cookie_name ck, cookie_value ck)] ->
      Session.app_fetch rt2 lib2 e r2 w2 =
        (Ret (c_redirect (new_context e r2) "/logout"), w2).
Proof.
  intros Hm Hp. eexists. split.
  - unfold Session.app_fetch, Session.public_routes. rewrite Hm, Hp. reflexivity.
  - simpl. repeat split.
    intros rt2 lib2 r2 w2 Hguard Hheader.
    unfold Session.app_fetch. rewrite Hguard.
    apply onError_ret. unfold Session.auth, getCookie. simpl.
    rewrite Hheader. reflexivity.
Qed.

Lemma logout_invalidates_witness :
  exists ck,
    Session.app_fetch Sample.rt Sample.lib (Sample.env unreachable_db)
      (Sample.get_with_cookie "/logout" "secret:acme") Sample.registered =
      (Ret {| status := 302; body := NoBody; location := Some "/login";
              set_cookie := [ck] |}, Sample.registered) /\
    cookie_value ck = "".
Proof.
  destruct (logout_invalidates Sample.rt Sample.lib (Sample.env unreachable_db)
              (Sample.get_with_cookie "/logout" "secret:acme") Sample.registered
              eq_refl eq_refl) as (ck & Hrun & _ & Hvalue & _).
  exists ck. split; assumption.
Defined.

(** ** Who writes the credential store *)

(** X9: only [POST /register] writes the credential store: every other
    request to the session revision (login, logout, the forms, every route
    under [/dashboard], unknown paths) leaves it exactly as it was. *)
Theorem only_register_writes (rt : Runtime) (lib : Libs) (e : Env) (r : Request)
        (w : world) :
  (req_method r =? "POST")%string && (req_path r =? "/register")%string = false ->
  accounts (snd (Session.app_fetch rt lib e r w)) = accounts w.
Proof.
  intros Hroute. unfold Session.app_fetch.
  destruct (Session.guarded (req_path r)).
  - unfold dispatch.
    apply (keeps_onError _ _
             (keeps_session_auth rt lib _ _
                (fun c' => keeps_onError c' _ (keeps_dashboard rt r c')))).
  - unfold Session.public_routes. rewrite Hroute.
    repeat match goal with
           | |- context [if ?b then _ else _] => destruct b
           end;
      rewrite keeps_onError; unfold notFound;
      auto using keeps_login, keeps_logout with keeps.
Qed.

Lemma only_register_writes_witness :
  accounts (snd (Session.app_fetch Sample.rt Sample.lib (Sample.env unreachable_db)
                   (Sample.post "/login" "globex" "s3cret") Sample.registered))
  = accounts Sample.registered.
Proof.
  apply (only_register_writes Sample.rt Sample.lib (Sample.env unreachable_db)
           (Sample.post "/login" "globex" "s3cret") Sample.registered).
  reflexivity.
Defined.

(** ** The status codes of the two workers *)

Create HintDb answers.

Lemma answers_ret (codes : list Z) (resp : Response) :
  In (status resp) codes -> answers codes (ret resp).
Proof. intros H w resp' w' Hrun. injection Hrun as <- _. exact H. Qed.

Lemma answers_bind {A} (codes : list Z) (m : M A) (k : A -> M Response) :
  (forall a, answers codes (k a)) -> answers codes (bind m k).
Proof.
  intros Hk w resp w' Hrun. unfold bind in Hrun.
  destruct (m w) as [[a | err] w1]; [| discriminate].
  apply (Hk a w1 resp w' Hrun).
Qed.

Lemma answers_try_catch (codes : list Z) (m : M Response) (h : exn -> M Response) :
  answers codes m -> (forall err, answers codes (h err)) ->
  answers codes (try_catch m h).
Proof.
  intros Hm Hh w resp w' Hrun. unfold try_catch in Hrun.
  destruct (m w) as [[a | err] w1] eqn:Hmw.
  - injection Hrun as <- <-. apply (Hm w a w1 Hmw).
  - apply (Hh err w1 resp w' Hrun).
Qed.

Lemma answers_onError (codes : list Z) (c : Context) (m : M Response) :
  In 500 codes -> answers codes m -> answers codes (onError c m).
Proof.
  intros H500 Hm. unfold onError. apply answers_try_catch; [exact Hm |].
  intros err. apply answers_ret. exact H500.
Qed.

#[local] Hint Extern 1 (answers _ (ret _)) => apply answers_ret; simpl; tauto : answers.
#[local] Hint Extern 2 (answers _ (bind _ _)) => apply answers_bind; intros : answers.
#[local] Hint Extern 2 (answers _ (try_catch _ _)) =>
  apply answers_try_catch; [| intros] : answers.
#[local] Hint Extern 2 (answers _ (onError _ _)) =>
  apply answers_onError; [simpl; tauto |] : answers.
#[local] Hint Extern 3 (answers _ (if ?b then _ else _)) => destruct b : answers.
#[local] Hint Extern 3 (answers _ (match ?o with Some _ => _ | None => _ end)) =>
  destruct o : answers.
#[local] Hint Extern 3 (answers _ (let '(_, _) := ?p in _)) => destruct p : answers.

Ltac unfold_handlers :=
  unfold Token.overview, Token.geo_distribution, Token.domain_summary,
    Token.detailed, Session.overview, Session.geo_location,
    Session.domain_summary, Session.detailed, Session.config,
    Session.register, Session.login, Session.logout, detailed_reports,
    auth_rates, top_senders, compliance_trends, failure_analysis, table_route,
    notFound.

Ltac split_routes :=
  repeat match goal with
         | |- context [if ?b then _ else _] => destruct b
         end.

(** X10: the token-parameter workers answer every request, and only with
    status 200, 400, 401, 404 or 500; the session worker answers every
    request, and only with 200, 302, 401, 404, 409 or 500. *)
Theorem status_codes (rt : Runtime) (lib : Libs) (rev : revision) (e : Env)
        (r : Request) (w : world) :
  (exists resp w',
     Token.app_fetch rt rev e r w = (Ret resp, w') /\
     In (status resp) [200; 400; 401; 404; 500]) /\
  (exists resp w',
     Session.app_fetch rt lib e r w = (Ret resp, w') /\
     In (status resp) [200; 302; 401; 404; 409; 500]).
Proof.
  split.
  - assert (Hcodes : answers [200; 400; 401; 404; 500] (Token.app_fetch rt rev e r)).
    { unfold Token.app_fetch, dispatch, Token.auth, Token.handler_of, Token.routes.
      destruct rev; split_routes; unfold_handlers; auto 12 with answers. }
    assert (Hresp : exists resp w', Token.app_fetch rt rev e r w = (Ret resp, w')).
    { unfold Token.app_fetch. destruct (Token.guarded rev (req_path r));
        [unfold dispatch |]; apply onError_returns. }
    destruct Hresp as (resp & w' & Hrun). exists resp, w'.
    split; [exact Hrun | apply (Hcodes w resp w' Hrun)].
  - assert (Hcodes : answers [200; 302; 401; 404; 409; 500]
                       (Session.app_fetch rt lib e r)).
    { unfold Session.app_fetch, dispatch, Session.auth, Session.handler_of,
        Session.dashboard_routes, Session.public_routes.
      split_routes; unfold_handlers; unfold Session.accounts_get;
        auto 12 with answers. }
    assert (Hresp : exists resp w', Session.app_fetch rt lib e r w = (Ret resp, w')).
    { unfold Session.app_fetch. destruct (Session.guarded (req_path r));
        [unfold dispatch |]; apply onError_returns. }
    destruct Hresp as (resp & w' & Hrun). exists resp, w'.
    split; [exact Hrun | apply (Hcodes w resp w' Hrun)].
Qed.

(** ** The statements a request runs *)

Create HintDb quiet.

Lemma quiet_ret {A} (a : A) : quiet (ret a).
Proof. intros w. reflexivity. Qed.

Lemma quiet_throw {A} (err : exn) : quiet (@throw A err).
Proof. intros w. reflexivity. Qed.

Lemma quiet_lift {A} (o : outcome A) : quiet (lift o).
Proof. intros w. reflexivity. Qed.

Lemma quiet_bind {A B} (m : M A) (k : A -> M B) :
  quiet m -> (forall a, quiet (k a)) -> quiet (bind m k).
Proof.
  intros Hm Hk w. unfold bind. specialize (Hm w).
  destruct (m w) as [[a | err] w']; simpl in *.
  - rewrite (Hk a w'). exact Hm.
  - exact Hm.
Qed.

Lemma quiet_try_catch {A} (m : M A) (h : exn -> M A) :
  quiet m -> (forall err, quiet (h err)) -> quiet (try_catch m h).
Proof.
  intros Hm Hh w. unfold try_catch. specialize (Hm w).
  destruct (m w) as [[a | err] w']; simpl in *.
  - exact Hm.
  - rewrite (Hh err w'). exact Hm.
Qed.

Lemma quiet_geo (rt : Runtime) (data : list row) :
  quiet (promise_all (map (geo_entry rt) data)).
Proof. intros w. rewrite geo_entries_resolve. reflexivity. Qed.

Lemma quiet_accounts_get (key : option string) : quiet (Session.accounts_get key).
Proof. intros w. reflexivity. Qed.

Lemma quiet_accounts_put (key : option string) (v : string) :
  quiet (Session.accounts_put key v).
Proof.
  intros w. unfold Session.accounts_put.
  destruct (refused_key (key_of key)); reflexivity.
Qed.

#[local] Hint Resolve quiet_ret quiet_throw quiet_lift quiet_geo quiet_accounts_get
  quiet_accounts_put : quiet.
#[local] Hint Extern 2 (quiet (bind _ _)) => apply quiet_bind; [| intros] : quiet.
#[local] Hint Extern 2 (quiet (try_catch _ _)) =>
  apply quiet_try_catch; [| intros] : quiet.
#[local] Hint Extern 2 (quiet (onError _ _)) =>
  unfold onError; apply quiet_try_catch; [| intros] : quiet.
#[local] Hint Extern 3 (quiet (if ?b then _ else _)) => destruct b : quiet.
#[local] Hint Extern 3 (quiet (match ?o with Some _ => _ | None => _ end)) =>
  destruct o : quiet.
#[local] Hint Extern 3 (quiet (match ?o with inl _ => _ | inr _ => _ end)) =>
  destruct o : quiet.

Lemma quiet_scoped {A} (customerId : value) (m : M A) :
  quiet m -> runs_scoped customerId m.
Proof.
  intros Hm w. exists []. split; [apply Hm |]. split; [simpl; lia | constructor].
Qed.

Lemma scoped_bind {A B} (customerId : value) (m : M A) (k : A -> M B) :
  runs_scoped customerId m -> (forall a, quiet (k a)) ->
  runs_scoped customerId (bind m k).
Proof.
  intros Hm Hk w. destruct (Hm w) as (new & Hnew & Hlen & Hall).
  exists new. split; [| split; assumption].
  unfold bind. destruct (m w) as [[a | err] w']; simpl in *.
  - rewrite (Hk a w'). exact Hnew.
  - exact Hnew.
Qed.

Lemma scoped_after_lift {A B} (customerId : value) (o : outcome A) (k : A -> M B) :
  (forall a, runs_scoped customerId (k a)) ->
  runs_scoped customerId (bind (lift o) k).
Proof.
  intros Hk w. unfold bind, lift. destruct o as [a | err].
  - apply (Hk a w).
  - exists []. split; [reflexivity |]. split; [simpl; lia | constructor].
Qed.

Lemma scoped_try_catch {A} (customerId : value) (m : M A) (h : exn -> M A) :
  runs_scoped customerId m -> (forall err, quiet (h err)) ->
  runs_scoped customerId (try_catch m h).
Proof.
  intros Hm Hh w. destruct (Hm w) as (new & Hnew & Hlen & Hall).
  exists new. split; [| split; assumption].
  unfold try_catch. destruct (m w) as [[a | err] w']; simpl in *.
  - exact Hnew.
  - rewrite (Hh err w'). exact Hnew.
Qed.

Lemma scoped_onError (customerId : value) (c : Context) (m : M Response) :
  runs_scoped customerId m -> runs_scoped customerId (onError c m).
Proof.
  intros Hm. unfold onError. apply scoped_try_catch; [exact Hm |].
  intros err. apply quiet_ret.
Qed.

Lemma fetchData_scoped (env : Env) (query : string) (params : list value)
      (customerId : value) :
  faithful (DB env) ->
  nth_error params 0 = Some customerId ->
  String.index 0 "customer_id = ?1" query <> None ->
  runs_scoped customerId (fetchData env query (Some params)).
Proof.
  intros [Hprepare Hbind] Hfirst Hsql w.
  exists [{| stmt_sql := query; stmt_params := params |}].
  split; [| split; [simpl; lia | repeat constructor; assumption]].
  unfold fetchData. run_monad. rewrite Hprepare. simpl. rewrite Hbind. simpl.
  destruct (d1_all (DB env) _); reflexivity.
Qed.

Lemma detailed_query_scoped (rt : Runtime) (rev : revision) (customerId : value)
      (startDate endDate domain : string) :
  nth_error (snd (detailed_query rt rev customerId startDate endDate domain)) 0
  = Some customerId /\
  String.index 0 "customer_id = ?1"
    (fst (detailed_query rt rev customerId startDate endDate domain)) <> None.
Proof.
  unfold detailed_query.
  destruct (truthy (VStr startDate)), (truthy (VStr endDate)),
    (truthy (VStr domain)), rev; vm_compute; split; (reflexivity || discriminate).
Qed.

Lemma table_route_scoped (sql heading : string) (head : list string)
      (cells : row -> outcome (list cell)) (with_customer : bool) (c : Context) :
  faithful (DB (env c)) ->
  String.index 0 "customer_id = ?1" sql <> None ->
  runs_scoped (c_get c "customerId")
    (table_route sql heading head cells with_customer c).
Proof.
  intros Hdb Hsql. unfold table_route.
  apply scoped_bind; [apply fetchData_scoped; auto | intros; auto with quiet].
Qed.

Lemma detailed_reports_scoped (rt : Runtime) (rev : revision)
      (mark : value -> string) (disposition : value -> piece)
      (with_customer : bool) (c : Context) :
  faithful (DB (env c)) ->
  runs_scoped (c_get c "customerId")
    (detailed_reports rt rev mark disposition with_customer c).
Proof.
  intros Hdb. unfold detailed_reports.
  pose proof (detailed_query_scoped rt rev (c_get c "customerId")
                (or_else (c_query c "start") "") (or_else (c_query c "end") "")
                (or_else (c_query c "domain") "")) as [Hfirst Hsql].
  destruct (detailed_query rt rev _ _ _ _) as [query params]. simpl in *.
  apply scoped_bind; [apply fetchData_scoped; auto | intros; auto with quiet].
Qed.

Ltac sql_mentions_tenant := vm_compute; discriminate.

Lemma token_handler_scoped (rt : Runtime) (rev : revision) (r : Request)
      (c : Context) :
  faithful (DB (env c)) ->
  runs_scoped (c_get c "customerId") (Token.handler_of rt rev r c).
Proof.
  intros Hdb. unfold Token.handler_of, Token.routes.
  destruct rev; split_routes;
    try (apply quiet_scoped; unfold notFound; auto with quiet; fail);
    try (apply detailed_reports_scoped; exact Hdb);
    try (unfold auth_rates, top_senders, compliance_trends, failure_analysis;
         apply table_route_scoped; [exact Hdb | sql_mentions_tenant]);
    unfold Token.overview, Token.geo_distribution, Token.domain_summary;
    (apply scoped_bind;
     [apply fetchData_scoped; [exact Hdb | reflexivity | sql_mentions_tenant]
     | intros; auto 8 with quiet]).
Qed.

Lemma session_handler_scoped (rt : Runtime) (r : Request) (c : Context) :
  faithful (DB (env c)) ->
  runs_scoped (c_get c "customerId") (Session.handler_of rt r c).
Proof.
  intros Hdb. unfold Session.handler_of, Session.dashboard_routes.
  split_routes;
    try (apply quiet_scoped; unfold notFound, Session.config; auto with quiet; fail);
    try (apply detailed_reports_scoped; exact Hdb);
    try (unfold auth_rates, top_senders, compliance_trends, failure_analysis;
         apply table_route_scoped; [exact Hdb | sql_mentions_tenant]);
    unfold Session.overview, Session.geo_location, Session.domain_summary;
    (apply scoped_bind;
     [apply fetchData_scoped; [exact Hdb | reflexivity | sql_mentions_tenant]
     | intros; auto 8 with quiet]).
Qed.

Lemma unguarded_has_no_route (rt : Runtime) (p : string) :
  Token.guarded UnderDashboard p = false -> Token.routes rt UnderDashboard p = None.
Proof.
  intros Hguard. unfold Token.routes.
  repeat match goal with
         | |- context [(p =? ?s)%string] =>
             destruct (String.eqb_spec p s) as [-> | _];
             [vm_compute in Hguard; discriminate |]
         end.
  reflexivity.
Qed.

(** X11: tenant scoping in the token-parameter revisions.  With a database
    that prepares and binds what it is asked, serving any request runs at
    most one statement, and that statement filters on [customer_id = ?1] with
    the [customer] parameter of the request bound as its first value. *)
Theorem token_statements_scoped (rt : Runtime) (rev : revision) (e : Env)
        (r : Request) (w : world) :
  faithful (DB e) ->
  exists new,
    executed (snd (Token.app_fetch rt rev e r w)) = (new ++ executed w)%list /\
    (length new <= 1)%nat /\
    Forall (scoped (of_option (c_query (new_context e r) "customer"))) new.
Proof.
  intros Hdb. revert w.
  change (runs_scoped (of_option (c_query (new_context e r) "customer"))
            (Token.app_fetch rt rev e r)).
  unfold Token.app_fetch.
  destruct (Token.guarded rev (req_path r)) eqn:Hguard.
  - unfold dispatch. apply scoped_onError. unfold Token.auth.
    destruct (negb (truthy_str (c_query (new_context e r) "customer")));
      [apply quiet_scoped; auto with quiet |].
    apply scoped_after_lift. intros isValid.
    destruct (negb (truthy_str isValid)); [apply quiet_scoped; auto with quiet |].
    apply scoped_onError.
    rewrite <- (c_get_set (new_context e r) "customerId"
                  (of_option (c_query (new_context e r) "customer"))) at 1.
    apply token_handler_scoped. exact Hdb.
  - destruct rev; [discriminate |].
    unfold Token.handler_of. rewrite (unguarded_has_no_route rt _ Hguard).
    apply quiet_scoped. unfold notFound. auto with quiet.
Qed.

Lemma checked_db_faithful (answer : D1PreparedStatement -> list row) :
  faithful (checked_db answer).
Proof. split; reflexivity. Qed.

Lemma token_statements_scoped_witness :
  exists new,
    executed (snd (Token.app_fetch Sample.rt UnderDashboard
                     (Sample.env (checked_db (fun _ => [])))
                     (Sample.get "/dashboard/top-senders" [("customer", "acme")])
                     Sample.empty))
    = (new ++ executed Sample.empty)%list /\
    (length new <= 1)%nat /\ Forall (scoped (VStr "acme")) new.
Proof.
  apply (token_statements_scoped Sample.rt UnderDashboard
           (Sample.env (checked_db (fun _ => [])))
           (Sample.get "/dashboard/top-senders" [("customer", "acme")])
           Sample.empty (checked_db_faithful (fun _ => []))).
Defined.

(** X12: tenant scoping in the session revision.  With a database that
    prepares and binds what it is asked, serving any request runs at most one
    statement; when it runs one, the request carried a cookie that [verify]
    accepted, and the statement filters on [customer_id = ?1] with the
    [customerId] of the verified payload bound as its first value. *)
Theorem session_statements_scoped (rt : Runtime) (lib : Libs) (e : Env)
        (r : Request) (w : world) :
  faithful (DB e) ->
  exists new,
    executed (snd (Session.app_fetch rt lib e r w)) = (new ++ executed w)%list /\
    (length new <= 1)%nat /\
    (new = [] \/
     exists t p, getCookie (new_context e r) "jwt" = Some t /\
                 verified rt lib e t = Ret p /\
                 Forall (scoped (prop p "customerId")) new).
Proof.
  intros Hdb.
  assert (Hquiet : forall (m : M Response), quiet m ->
            exists new,
              executed (snd (m w)) = (new ++ executed w)%list /\
              (length new <= 1)%nat /\
              (new = [] \/
               exists t p, getCookie (new_context e r) "jwt" = Some t /\
                           verified rt lib e t = Ret p /\
                           Forall (scoped (prop p "customerId")) new)).
  { intros m Hm. exists []. split; [apply Hm |]. split; [simpl; lia | left; reflexivity]. }
  unfold Session.app_fetch.
  destruct (Session.guarded (req_path r)).
  - unfold dispatch, Session.auth.
    destruct (getCookie (new_context e r) "jwt") as [t |] eqn:Hcookie;
      [| apply Hquiet; simpl; auto with quiet].
    destruct (truthy_str (Some t));
      [| apply Hquiet; simpl; auto with quiet].
    cbv beta iota delta [negb key_of].
    change (JWT_SECRET_KEY (env (new_context e r))) with (JWT_SECRET_KEY e).
    destruct (verify lib t (JWT_SECRET_KEY e) (date_now rt)) as [p | err] eqn:Hverify.
    + destruct (truthy (prop p "customerId")) eqn:Hclaim.
      * assert (Hscoped : runs_scoped (prop p "customerId")
                  (onError (new_context e r)
                     (try_catch
                        (decodedPayload <- lift (Ret p) ;;
                         if negb (truthy (prop decodedPayload "customerId"))
                         then ret (c_redirect (new_context e r) "/logout")
                         else onError
                                (c_set (new_context e r) "customerId"
                                   (prop decodedPayload "customerId"))
                                (Session.handler_of rt r
                                   (c_set (new_context e r) "customerId"
                                      (prop decodedPayload "customerId"))))
                        (fun _ => ret (c_redirect (new_context e r) "/logout"))))).
        { apply scoped_onError. apply scoped_try_catch; [| intros; apply quiet_ret].
          intros w0. unfold bind, lift. rewrite Hclaim. simpl.
          apply scoped_onError.
          rewrite <- (c_get_set (new_context e r) "customerId" (prop p "customerId"))
            at 1.
          apply session_handler_scoped. exact Hdb. }
        destruct (Hscoped w) as (new & Hnew & Hlen & Hall).
        exists new. split; [exact Hnew |]. split; [exact Hlen |].
        right. exists t, p. repeat split; assumption.
      * apply Hquiet. unfold onError.
        apply quiet_try_catch; [| intros; apply quiet_ret].
        apply quiet_try_catch; [| intros; apply quiet_ret].
        intros w0. unfold bind, lift. rewrite Hclaim. reflexivity.
    + apply Hquiet. unfold onError.
      apply quiet_try_catch; [| intros; apply quiet_ret].
      apply quiet_try_catch; [| intros; apply quiet_ret].
      intros w0. reflexivity.
  - apply Hquiet. unfold Session.public_routes.
    split_routes; unfold_handlers; auto 12 with quiet.
Qed.

Lemma session_statements_scoped_witness :
  exists new,
    executed (snd (Session.app_fetch Sample.rt Sample.lib
                     (Sample.env (checked_db (fun _ => [])))
                     (Sample.get_with_cookie "/dashboard/top-senders" "secret:acme")
                     Sample.empty))
    = (new ++ executed Sample.empty)%list /\
    (length new <= 1)%nat /\
    (new = [] \/
     exists t p,
       getCookie (new_context (Sample.env (checked_db (fun _ => [])))
                    (Sample.get_with_cookie "/dashboard/top-senders" "secret:acme"))
                 "jwt" = Some t /\
       verified Sample.rt Sample.lib (Sample.env (checked_db (fun _ => []))) t = Ret p /\
       Forall (scoped (prop p "customerId")) new).
Proof.
  apply (session_statements_scoped Sample.rt Sample.lib
           (Sample.env (checked_db (fun _ => [])))
           (Sample.get_with_cookie "/dashboard/top-senders" "secret:acme")
           Sample.empty (checked_db_faithful (fun _ => []))).
Defined.

(** ** Tables that cannot fail, and one that can *)

Lemma map_rows_total {A B} (f : A -> B) (l : list A) :
  map_rows (fun x => Ret (f x)) l = Ret (map f l).
Proof. induction l as [| x l IH]; simpl; [reflexivity | rewrite IH; reflexivity]. Qed.

Lemma table_route_total (sql heading : string) (head : list string)
      (cells : row -> list cell) (with_customer : bool) (c : Context)
      (w w' : world) (data : list row) :
  fetchData (env c) sql (Some [c_get c "customerId"]) w = (Ret data, w') ->
  draws_table (table_route sql heading head (fun r => Ret (cells r)) with_customer)
              c w w' data.
Proof.
  intros Hrun. unfold draws_table, table_route. run_monad. rewrite Hrun.
  rewrite map_rows_total. eexists _, _, _, _, _. split; [reflexivity |].
  apply length_map.
Qed.

(** X13: the top-senders, compliance-trends and failure-analysis handlers
    cannot fail on what the database returns: whatever the rows hold (missing
    columns, NULLs, text), they answer with status 200 and a table of one row
    per result row.  A NULL failure rate is drawn as the number zero. *)
Theorem plain_tables_never_fail (rt : Runtime) (rev : revision)
        (with_customer : bool) (c : Context) (w : world) :
  (forall w' data,
     fetchData (env c) sql_top_senders (Some [c_get c "customerId"]) w
       = (Ret data, w') ->
     draws_table (top_senders with_customer) c w w' data) /\
  (forall w' data,
     fetchData (env c) (sql_compliance_trends rev) (Some [c_get c "customerId"]) w
       = (Ret data, w') ->
     draws_table (compliance_trends rt rev with_customer) c w w' data) /\
  (forall w' data,
     fetchData (env c) sql_failure_analysis (Some [c_get c "customerId"]) w
       = (Ret data, w') ->
     draws_table (failure_analysis rt with_customer) c w w' data) /\
  (forall r, prop r "failure_rate" = VNull ->
     mul (to_number (str_num rt) (prop r "failure_rate")) (Fin 100) = Fin 0).
Proof.
  split; [| split; [| split]].
  - intros w' data Hrun. unfold top_senders. apply table_route_total, Hrun.
  - intros w' data Hrun. unfold compliance_trends. apply table_route_total, Hrun.
  - intros w' data Hrun. unfold failure_analysis. apply table_route_total, Hrun.
  - intros r Hnull. rewrite Hnull. reflexivity.
Qed.

Lemma plain_tables_never_fail_witness :
  draws_table (top_senders true)
    (c_set (new_context (Sample.env (checked_db (fun _ => [Sample.zero_total_row])))
              (Sample.get "/top-senders" [("customer", "acme")]))
           "customerId" (VStr "acme"))
    Sample.empty
    (World ∅ [{| stmt_sql := sql_top_senders; stmt_params := [VStr "acme"] |}])
    [Sample.zero_total_row].
Proof.
  apply (proj1 (plain_tables_never_fail Sample.rt AtRoot true
                  (c_set (new_context
                            (Sample.env (checked_db (fun _ => [Sample.zero_total_row])))
                            (Sample.get "/top-senders" [("customer", "acme")]))
                         "customerId" (VStr "acme"))
                  Sample.empty)).
  reflexivity.
Defined.

Lemma map_rows_raises {A B} (f : A -> outcome B) (l : list A) :
  (exists x err, In x l /\ f x = Throw err) ->
  exists err, map_rows f l = Throw err.
Proof.
  intros (x & err & Hin & Hx). induction l as [| y l IH]; [destruct Hin |].
  simpl. destruct (f y) as [b | err'] eqn:Hy; [| eauto].
  destruct Hin as [-> | Hin]; [congruence |].
  destruct (IH Hin) as [err'' ->]. eauto.
Qed.

Lemma map_rows_returns {A B} (f : A -> outcome B) (l : list A) :
  (forall x, In x l -> exists b, f x = Ret b) ->
  exists bs, map_rows f l = Ret bs /\ length bs = length l.
Proof.
  induction l as [| y l IH]; intros H; simpl; [exists []; auto |].
  destruct (H y (or_introl eq_refl)) as [b ->].
  destruct IH as (bs & -> & Hlen); [intros x Hx; apply H; right; exact Hx |].
  exists (b :: bs). simpl. auto.
Qed.

(** X14: the auth-rates handler calls [toLocaleString] on the three counts
    of each row.  When every row holds a number or a string in [total],
    [success] and [failure] it answers with one table row per result row;
    as soon as one row holds NULL or lacks one of the three, the handler
    raises and the request is answered with the 500 page. *)
Theorem auth_rates_counts (rt : Runtime) (rev : revision) (with_customer : bool)
        (c : Context) (w w' : world) (data : list row) :
  fetchData (env c) (sql_auth_rates rev) (Some [c_get c "customerId"]) w
    = (Ret data, w') ->
  (forallb countable_row data = true ->
   draws_table (auth_rates rt rev with_customer) c w w' data) /\
  (forallb countable_row data = false ->
   onError c (auth_rates rt rev with_customer c) w
   = (Ret (c_html c ErrorPage 500), w')).
Proof.
  intros Hrun. split; intros Hrows.
  - unfold draws_table, auth_rates, table_route. run_monad. rewrite Hrun.
    match goal with
    | |- context [map_rows ?f data] =>
        destruct (map_rows_returns f data) as (rows & -> & Hlen)
    end.
    + intros r Hr. rewrite forallb_forall in Hrows. specialize (Hrows r Hr).
      unfold countable_row in Hrows.
      apply andb_prop in Hrows as [Hrows Hfailure].
      apply andb_prop in Hrows as [Htotal Hsuccess].
      destruct (prop r "total"), (prop r "success"), (prop r "failure");
        try discriminate; simpl; eauto.
    + eexists _, _, _, _, _. split; [reflexivity | exact Hlen].
  - assert (Hbad : exists r, In r data /\ countable_row r = false).
    { clear Hrun. induction data as [| r data IH]; [discriminate |].
      simpl in Hrows. destruct (countable_row r) eqn:Hr.
      - destruct (IH Hrows) as (r' & Hin & Hr'). exists r'. split; [right |]; auto.
      - exists r. split; [left; reflexivity | exact Hr]. }
    destruct Hbad as (r & Hin & Hr).
    unfold onError, auth_rates, table_route. run_monad. rewrite Hrun.
    match goal with
    | |- context [map_rows ?f data] =>
        destruct (map_rows_raises f data) as (err & ->)
    end; [| reflexivity].
    exists r. unfold countable_row in Hr.
    destruct (prop r "total"), (prop r "success"), (prop r "failure");
      try discriminate; simpl; eauto.
Qed.

Lemma auth_rates_counts_witness :
  onError
    (c_set (new_context
              (Sample.env (checked_db (fun _ => [[("total", of_Z 4)]])))
              (Sample.get "/auth-rates" [("customer", "acme")]))
           "customerId" (VStr "acme"))
    (auth_rates Sample.rt AtRoot true
       (c_set (new_context
                 (Sample.env (checked_db (fun _ => [[("total", of_Z 4)]])))
                 (Sample.get "/auth-rates" [("customer", "acme")]))
              "customerId" (VStr "acme")))
    Sample.empty
  = (Ret {| status := 500; body := Html ErrorPage; location := None;
            set_cookie := [] |},
     World ∅ [{| stmt_sql := sql_auth_rates AtRoot; stmt_params := [VStr "acme"] |}]).
Proof.
  apply (proj2 (auth_rates_counts Sample.rt AtRoot true
                  (c_set (new_context
                            (Sample.env (checked_db (fun _ => [[("total", of_Z 4)]])))
                            (Sample.get "/auth-rates" [("customer", "acme")]))
                         "customerId" (VStr "acme"))
                  Sample.empty _ [[("total", of_Z 4)]] eq_refl)).
  reflexivity.
Defined.

(** ** The overview of a tenant with reports *)

Lemma passed_count_bounds (rs : list report) :
  (0 <= passed_count rs <= Z.of_nat (length rs))%Z.
Proof.
  unfold passed_count. split; [lia |].
  apply Nat2Z.inj_le. induction rs as [| r rs IH]; simpl; [lia |].
  destruct ((dkim_result r =? 1) && (spf_result r =? 1)); simpl; lia.
Qed.

Lemma percentage_bounds (rs : list report) :
  rs <> [] ->
  exists q, percentage rs = VNum (Fin q) /\ (0 <= q)%Q /\ (q <= 100)%Q.
Proof.
  intros Hne. unfold percentage. eexists. split; [reflexivity |].
  pose proof (passed_count_bounds rs) as [Hlo Hhi].
  assert (Hlen : (0 < Z.of_nat (length rs))%Z) by (destruct rs; [congruence | simpl; lia]).
  rewrite Qred_correct. split.
  - apply Qle_shift_div_l.
    + rewrite <- (Zlt_Qlt 0). exact Hlen.
    + unfold Qle, Qmult, inject_Z. simpl. lia.
  - apply Qle_shift_div_r.
    + rewrite <- (Zlt_Qlt 0). exact Hlen.
    + unfold Qle, Qmult, inject_Z. simpl. nia.
Qed.

(** X15: for an allowlisted tenant with at least one report, the overview
    statements of the token revisions and of the session revision answer
    alike, both handlers show the same four cards with status 200, and the
    success rate shown lies between 0 and 100. *)
Theorem overview_with_reports (c : Context) (table : list report)
        (customer : string) (w : world) :
  DB (env c) = reports_db table ->
  c_get c "customerId" = VStr customer ->
  (exists x, In x table /\ customer_id x = customer) ->
  exists n ips domains q,
    (0 <= q)%Q /\ (q <= 100)%Q /\ (0 < n)%Z /\
    let cards := [("Total Reports", [LocaleString (Fin (inject_Z n))]);
                  ("Unique IPs", [LocaleString (Fin (inject_Z ips))]);
                  ("Unique Domains", [LocaleString (Fin (inject_Z domains))]);
                  ("Success Rate", [ToFixed 1 (Fin q); Lit "%"])] in
    fst (Token.overview c w)
    = Ret (c_html c (Layout (Some (VStr customer))
                       (Stats [Lit "DMARC Analytics Overview"] cards)) 200) /\
    fst (Session.overview c w)
    = Ret (c_html c (Layout None
                       (Stats [Lit "DMARC Analytics Overview for ";
                               Interp (VStr customer)] cards)) 200).
Proof.
  intros Hdb Hc (x & Hin & Hx).
  set (matching := List.filter (fun r => (customer_id r =? customer)%string) table).
  assert (Hne : matching <> []).
  { assert (Hm : In x matching).
    { apply filter_In. split; [exact Hin |]. apply String.eqb_eq. exact Hx. }
    intros Hnil. rewrite Hnil in Hm. destruct Hm. }
  destruct (percentage_bounds matching Hne) as (q & Hq & Hlo & Hhi).
  exists (Z.of_nat (length matching)), (count_distinct (map source_ip matching)),
    (count_distinct (map header_from matching)), q.
  split; [exact Hlo |]. split; [exact Hhi |].
  split; [destruct matching; [congruence | simpl; lia] |].
  assert (Hrate : success_rate matching = VNum (Fin q)
                  /\ success_rate_coalesce matching = VNum (Fin q)).
  { unfold success_rate, success_rate_coalesce.
    destruct matching; [congruence | auto]. }
  destruct Hrate as [Hrate Hrate'].
  split.
  - unfold Token.overview. rewrite Hc. run_monad.
    pose proof (fetch_overview (env c) table customer w Hdb) as Hfetch.
    fold matching in Hfetch.
    destruct (fetchData (env c) sql_overview (Some [VStr customer]) w) as [o w'].
    simpl in Hfetch. subst o. unfold overview_row, stats_cards. simpl.
    rewrite Hrate. reflexivity.
  - unfold Session.overview. rewrite Hc. run_monad.
    pose proof (fetch_overview_coalesce (env c) table customer w Hdb) as Hfetch.
    fold matching in Hfetch.
    destruct (fetchData (env c) sql_overview_coalesce (Some [VStr customer]) w)
      as [o w'].
    simpl in Hfetch. subst o. unfold overview_row, stats_cards. simpl.
    rewrite Hrate'. reflexivity.
Qed.

Lemma overview_with_reports_witness :
  exists n ips domains q,
    (0 <= q)%Q /\ (q <= 100)%Q /\ (0 < n)%Z /\
    fst (Token.overview
           (c_set (new_context
                     (Sample.env (reports_db
                        [{| customer_id := "acme"; source_ip := "192.0.2.1";
                            header_from := "acme.example"; dkim_result := 1;
                            spf_result := 2 |}]))
                     (Sample.get "/" [("customer", "acme")]))
                  "customerId" (VStr "acme"))
           Sample.empty)
    = Ret {| status := 200;
             body := Html (Layout (Some (VStr "acme"))
                       (Stats [Lit "DMARC Analytics Overview"]
                          [("Total Reports", [LocaleString (Fin (inject_Z n))]);
                           ("Unique IPs", [LocaleString (Fin (inject_Z ips))]);
                           ("Unique Domains", [LocaleString (Fin (inject_Z domains))]);
                           ("Success Rate", [ToFixed 1 (Fin q); Lit "%"])]));
             location := None; set_cookie := [] |}.
Proof.
  destruct (overview_with_reports
              (c_set (new_context
                        (Sample.env (reports_db
                           [{| customer_id := "acme"; source_ip := "192.0.2.1";
                               header_from := "acme.example"; dkim_result := 1;
                               spf_result := 2 |}]))
                        (Sample.get "/" [("customer", "acme")]))
                     "customerId" (VStr "acme"))
              [{| customer_id := "acme"; source_ip := "192.0.2.1";
                  header_from := "acme.example"; dkim_result := 1;
                  spf_result := 2 |}]
              "acme" Sample.empty eq_refl eq_refl)
    as (n & ips & domains & q & Hlo & Hhi & Hn & Htoken & _).
  - eexists. split; [left; reflexivity | reflexivity].
  - exists n, ips, domains, q. repeat split; assumption.
Defined.
